(** * Streaming session orchestrator of [app.py]: model and properties

    A shallow embedding of the orchestration code of [src/app.py]: the
    persistent event log ([log_to_database], [get_logs_from_database]),
    the encoder supervisor ([run_ffmpeg] and the [log_callback] closure),
    the OAuth code exchange ([exchange_code_for_tokens],
    [auto_process_auth_code] and the manual button of [main]), the
    broadcast provisioner ([create_live_stream],
    [get_broadcast_stream_key], [get_stream_key_only]), the start/stop
    button handlers of [main], the configuration files
    ([validate_channel_config], [load_google_oauth_config],
    [generate_auth_url]) and the table of saved channels.

    Conventions.
    - [st.session_state] is a record of optional entries (a key that is
      absent from the dict is [None]).
    - Everything outside the Python process is explicit: the SQLite tables,
      the files, the operating-system actions performed (a trace), the HTTP
      requests sent (a trace) and the clock (a sequence of readings).
    - A [datetime] is a number of microseconds; formatting functions of the
      [datetime] library are section variables.
    - An expression that may raise has a [result]; where the source wraps
      it in [try/except Exception], [Raise] is mapped to what the handler
      returns, elsewhere the exception leaves the function ([..Crashed]).
    - [w_db_ok] says whether the [sqlite3] calls succeed; the functions of
      the source report a failure with [st.error] and go on.
    - Strings are byte strings; the pictographs of the messages shown with
      [st.error] and the like are left out, those of the log lines are kept
      as the source file has them. *)

From stdpp Require Import base strings list gmap pretty.
From Stdlib Require Import ZArith Lia Sorting.Sorted.

#[local] Set Warnings "-register-all,-clear-no-such-hyp".

Local Open Scope string_scope.
Local Open Scope Z_scope.

(** ** Python values and builtins *)

Module Py.

(** Outcome of an expression that may raise. *)
Inductive result (A : Type) : Type :=
| Ok (a : A)
| Raise (e : string).
Arguments Ok {A} a.
Arguments Raise {A} e.

Definition bind {A B} (r : result A) (k : A -> result B) : result B :=
  match r with
  | Ok a => k a
  | Raise e => Raise e
  end.

(** Truth value of a [str]. *)
Definition str_truthy (s : string) : bool :=
  match s with
  | EmptyString => false
  | String _ _ => true
  end.

(** Truth value of an optional [str] ([None] is false). *)
Definition opt_truthy (o : option string) : bool :=
  match o with
  | None => false
  | Some s => str_truthy s
  end.

(** [a or b] on optional strings. *)
Definition or_else (a : option string) (b : string) : string :=
  match a with
  | Some s => if str_truthy s then s else b
  | None => b
  end.

(** [l[i:]] for any integer [i] (negative counts from the end, out of
    range is clamped). *)
Definition slice_from {A} (i : Z) (l : list A) : list A :=
  let n := Z.of_nat (length l) in
  let start := if i <? 0 then Z.max 0 (n + i) else Z.min i n in
  drop (Z.to_nat start) l.

(** [l[:k]] for a non-negative [k]. *)
Definition slice_to {A} (k : nat) (l : list A) : list A := take k l.

(** [sep.join(l)]. *)
Fixpoint join (sep : string) (l : list string) : string :=
  match l with
  | [] => ""
  | [x] => x
  | x :: rest => x ++ sep ++ join sep rest
  end.

(** White space as [str.isspace] sees it, among the ASCII characters. *)
Definition is_space (c : Ascii.ascii) : bool :=
  let n := Ascii.nat_of_ascii c in
  ((9 <=? n)%nat && (n <=? 13)%nat) || ((28 <=? n)%nat && (n <=? 32)%nat).

Fixpoint lstrip (s : string) : string :=
  match s with
  | String c s' => if is_space c then lstrip s' else s
  | EmptyString => EmptyString
  end.

Fixpoint rstrip (s : string) : string :=
  match s with
  | EmptyString => EmptyString
  | String c s' =>
      match rstrip s' with
      | EmptyString => if is_space c then EmptyString else String c EmptyString
      | r => String c r
      end
  end.

(** [s.strip()]. *)
Definition strip (s : string) : string := rstrip (lstrip s).

(** [s.split()] on white space. *)
Fixpoint split_ws_aux (cur : string) (s : string) : list string :=
  match s with
  | EmptyString => if str_truthy cur then [cur] else []
  | String c s' =>
      if is_space c
      then (if str_truthy cur then cur :: split_ws_aux "" s' else split_ws_aux "" s')
      else split_ws_aux (cur ++ String c EmptyString) s'
  end.

Definition split_ws (s : string) : list string := split_ws_aux "" s.

(** [needle in hay] on strings. *)
Fixpoint contains (needle hay : string) : bool :=
  String.prefix needle hay ||
  match hay with
  | EmptyString => false
  | String _ hay' => contains needle hay'
  end.

(** The character [,]. *)
Definition comma : Ascii.ascii := Ascii.ascii_of_nat 44.

(** [s.split(sep)] for a one-character separator. *)
Fixpoint split_on_aux (sep : Ascii.ascii) (cur : string) (s : string) : list string :=
  match s with
  | EmptyString => [cur]
  | String c s' =>
      if Ascii.eqb c sep
      then cur :: split_on_aux sep "" s'
      else split_on_aux sep (cur ++ String c EmptyString) s'
  end.

Definition split_on (sep : Ascii.ascii) (s : string) : list string :=
  split_on_aux sep "" s.

(** The largest [datetime], 9999-12-31T23:59:59.999999, in microseconds
    since 0001-01-01T00:00:00. *)
Definition datetime_max : Z := 3652059 * 86400 * 1000000 - 1.

(** [d + timedelta(seconds=n)]. *)
Definition add_seconds (d n : Z) : result Z :=
  let r := d + n * 1000000 in
  if (0 <=? r) && (r <=? datetime_max) then Ok r else Raise "OverflowError".

End Py.

Import Py.

(** ** JSON values: OAuth configurations, tokens and API responses *)

Inductive json :=
| JNull
| JBool (b : bool)
| JNum (n : Z)
| JStr (s : string)
| JArr (items : list json)
| JObj (fields : list (string * json)).

Module Json.

(** Truth value of a Python value ([if v:], [not v]). *)
Definition truthy (v : json) : bool :=
  match v with
  | JNull => false
  | JBool b => b
  | JNum n => negb (n =? 0)
  | JStr s => str_truthy s
  | JArr items => match items with [] => false | _ => true end
  | JObj fields => match fields with [] => false | _ => true end
  end.

Fixpoint assoc (k : string) (fields : list (string * json)) : option json :=
  match fields with
  | [] => None
  | (k', v) :: rest => if String.eqb k k' then Some v else assoc k rest
  end.

(** [d[k]] with a string key. *)
Definition getitem (d : json) (k : string) : result json :=
  match d with
  | JObj fields =>
      match assoc k fields with
      | Some v => Ok v
      | None => Raise "KeyError"
      end
  | _ => Raise "TypeError"
  end.

(** [d[0]]. *)
Definition getitem0 (d : json) : result json :=
  match d with
  | JArr (x :: _) => Ok x
  | JArr [] => Raise "IndexError"
  | JStr (String c _) => Ok (JStr (String c EmptyString))
  | JStr EmptyString => Raise "IndexError"
  | JObj _ => Raise "KeyError"
  | _ => Raise "TypeError"
  end.

(** [d.get(k)]: [None] when the key is missing. *)
Definition get (d : json) (k : string) : result json :=
  match d with
  | JObj fields =>
      match assoc k fields with
      | Some v => Ok v
      | None => Ok JNull
      end
  | _ => Raise "AttributeError"
  end.

(** [d.get(k, default)]. *)
Definition get_default (d : json) (k : string) (dflt : json) : result json :=
  match d with
  | JObj fields =>
      match assoc k fields with
      | Some v => Ok v
      | None => Ok dflt
      end
  | _ => Raise "AttributeError"
  end.

End Json.

#[global] Instance result_bind : MBind result :=
  fun A B f r => Py.bind r f.
#[global] Instance result_ret : MRet result := @Py.Ok.

(** ** The platform API client ([googleapiclient] service object)

    Each method builds a request and [execute()] returns the response or
    raises. Every function below calls a method at most once, so a function
    of the request is as general as a stateful platform. *)

Record Service := {
  liveStreams_insert : json -> result json;          (* part, body *)
  liveStreams_list : json -> result json;            (* part="cdn", id *)
  liveBroadcasts_insert : json -> result json;       (* part, body *)
  liveBroadcasts_bind : json -> json -> result json; (* id, streamId *)
  liveBroadcasts_list : json -> result json;         (* part, id *)
  channels_list_mine : result json                   (* mine=True *)
}.

(** Requests sent to the platform, in order. *)
Inductive api_call :=
| StreamsInsert (body : json)
| StreamsList (id : json)
| BroadcastsInsert (body : json)
| BroadcastsBind (id stream_id : json)
| BroadcastsList (id : json).

(** ** Persistent storage and the outside world *)

(** A row of table [streaming_logs] (the [id] column is the position). *)
Record log_row := {
  lr_timestamp : string;
  lr_session_id : string;
  lr_log_type : string;
  lr_message : string;
  lr_video_file : option string;
  lr_stream_key : option string;
  lr_channel_name : option string
}.

(** The five columns that [get_logs_from_database] selects. *)
Record log_view := {
  lv_timestamp : string;
  lv_log_type : string;
  lv_message : string;
  lv_video_file : option string;
  lv_channel_name : option string
}.

(** A row of table [streaming_sessions], keyed by [session_id]. *)
Record session_row := {
  sr_start_time : string;
  sr_video_file : string;
  sr_stream_title : string;
  sr_stream_description : string;
  sr_tags : string;
  sr_category : string;
  sr_privacy_status : string;
  sr_made_for_kids : bool;
  sr_channel_name : json
}.

(** One [INSERT OR REPLACE INTO saved_channels], keyed by [channel_name]. *)
Record saved_channel := {
  sc_channel_name : json;
  sc_channel_id : json;
  sc_auth_data : json;
  sc_created_at : string;
  sc_last_used : string
}.

(** The form that [exchange_code_for_tokens] posts to the token endpoint. *)
Record post_request := {
  pr_url : json;
  pr_client_id : json;
  pr_client_secret : json;
  pr_code : string;
  pr_grant_type : string;
  pr_redirect_uri : json
}.

(** What the code reads of a [requests] response; [resp_json] is the
    result of [response.json()]. *)
Record http_response := {
  resp_status_code : Z;
  resp_text : string;
  resp_json : result json
}.

(** Arguments of one [threading.Thread(target=run_ffmpeg, args=...)]. *)
Record ffmpeg_args := {
  fa_video_path : string;
  fa_stream_key : json;
  fa_is_shorts : bool;
  fa_rtmp_url : option string;
  fa_session_id : string
}.

(** Actions on the operating system, in the order they are performed. *)
Inductive os_action :=
| ThreadStart (a : ffmpeg_args)
| System (cmd : string)
| Remove (path : string).

(** Messages shown through [st.error], [st.success], [st.warning],
    [st.info]. *)
Inductive ui_msg :=
| UiError (m : string)
| UiSuccess (m : string)
| UiWarning (m : string)
| UiInfo (m : string).

Record World := {
  w_ticks : nat;                            (* clock readings made so far *)
  w_db_ok : bool;                           (* sqlite3 calls succeed *)
  w_logs : list log_row;                    (* streaming_logs, by id *)
  w_sessions : gmap string session_row;     (* streaming_sessions *)
  w_saved : list saved_channel;             (* upserts into saved_channels *)
  w_files : gset string;                    (* files in the directory *)
  w_os : list os_action;                    (* actions performed *)
  w_http : list post_request;               (* token requests sent *)
  w_api : list api_call;                    (* platform requests sent *)
  w_ui : list ui_msg                        (* messages displayed *)
}.

Definition tick (w : World) : World :=
  {| w_ticks := S (w_ticks w); w_db_ok := w_db_ok w; w_logs := w_logs w;
     w_sessions := w_sessions w; w_saved := w_saved w;
     w_files := w_files w; w_os := w_os w; w_http := w_http w;
     w_api := w_api w; w_ui := w_ui w |}.

Definition show (m : ui_msg) (w : World) : World :=
  {| w_ticks := w_ticks w; w_db_ok := w_db_ok w; w_logs := w_logs w;
     w_sessions := w_sessions w; w_saved := w_saved w;
     w_files := w_files w; w_os := w_os w; w_http := w_http w;
     w_api := w_api w; w_ui := w_ui w ++ [m] |}.

Definition perform (a : os_action) (w : World) : World :=
  {| w_ticks := w_ticks w; w_db_ok := w_db_ok w; w_logs := w_logs w;
     w_sessions := w_sessions w; w_saved := w_saved w;
     w_files := w_files w; w_os := w_os w ++ [a]; w_http := w_http w;
     w_api := w_api w; w_ui := w_ui w |}.

Definition add_log (r : log_row) (w : World) : World :=
  {| w_ticks := w_ticks w; w_db_ok := w_db_ok w; w_logs := w_logs w ++ [r];
     w_sessions := w_sessions w; w_saved := w_saved w;
     w_files := w_files w; w_os := w_os w; w_http := w_http w;
     w_api := w_api w; w_ui := w_ui w |}.

Definition put_session (k : string) (r : session_row) (w : World) : World :=
  {| w_ticks := w_ticks w; w_db_ok := w_db_ok w; w_logs := w_logs w;
     w_sessions := <[k := r]> (w_sessions w); w_saved := w_saved w;
     w_files := w_files w; w_os := w_os w; w_http := w_http w;
     w_api := w_api w; w_ui := w_ui w |}.

Definition add_saved (r : saved_channel) (w : World) : World :=
  {| w_ticks := w_ticks w; w_db_ok := w_db_ok w; w_logs := w_logs w;
     w_sessions := w_sessions w; w_saved := w_saved w ++ [r];
     w_files := w_files w; w_os := w_os w; w_http := w_http w;
     w_api := w_api w; w_ui := w_ui w |}.

Definition remove_file (p : string) (w : World) : World :=
  {| w_ticks := w_ticks w; w_db_ok := w_db_ok w; w_logs := w_logs w;
     w_sessions := w_sessions w; w_saved := w_saved w;
     w_files := w_files w ∖ {[p]}; w_os := w_os w ++ [Remove p];
     w_http := w_http w; w_api := w_api w; w_ui := w_ui w |}.

Definition sent (r : post_request) (w : World) : World :=
  {| w_ticks := w_ticks w; w_db_ok := w_db_ok w; w_logs := w_logs w;
     w_sessions := w_sessions w; w_saved := w_saved w;
     w_files := w_files w; w_os := w_os w; w_http := w_http w ++ [r];
     w_api := w_api w; w_ui := w_ui w |}.

Definition called (c : api_call) (w : World) : World :=
  {| w_ticks := w_ticks w; w_db_ok := w_db_ok w; w_logs := w_logs w;
     w_sessions := w_sessions w; w_saved := w_saved w;
     w_files := w_files w; w_os := w_os w; w_http := w_http w;
     w_api := w_api w ++ [c]; w_ui := w_ui w |}.

(** Number of [os.system("pkill ffmpeg")] calls performed. *)
Definition is_pkill (a : os_action) : bool :=
  match a with
  | System cmd => String.eqb cmd "pkill ffmpeg"
  | _ => false
  end.

Definition kill_attempts (w : World) : nat :=
  length (List.filter is_pkill (w_os w)).

Definition is_thread_start (a : os_action) : option ffmpeg_args :=
  match a with
  | ThreadStart args => Some args
  | _ => None
  end.

(** Encoder threads launched so far. *)
Definition launched (w : World) : list ffmpeg_args :=
  omap is_thread_start (w_os w).

(** ** [st.session_state] *)

Record SessionState := {
  session_id : string;
  live_logs : option (list string);
  streaming : option bool;
  stream_start_time : option Z;
  current_stream_key : option json;
  ffmpeg_thread : option ffmpeg_args;
  processed_codes : option (gset string);
  oauth_config : option json;
  youtube_tokens : option json;
  youtube_service : option Service;
  channel_info : option json;
  live_broadcast_info : option json
}.

Definition set_live_logs (v : option (list string)) (s : SessionState) :=
  {| session_id := session_id s; live_logs := v; streaming := streaming s;
     stream_start_time := stream_start_time s;
     current_stream_key := current_stream_key s;
     ffmpeg_thread := ffmpeg_thread s; processed_codes := processed_codes s;
     oauth_config := oauth_config s; youtube_tokens := youtube_tokens s;
     youtube_service := youtube_service s; channel_info := channel_info s;
     live_broadcast_info := live_broadcast_info s |}.

Definition set_streaming (v : option bool) (s : SessionState) :=
  {| session_id := session_id s; live_logs := live_logs s; streaming := v;
     stream_start_time := stream_start_time s;
     current_stream_key := current_stream_key s;
     ffmpeg_thread := ffmpeg_thread s; processed_codes := processed_codes s;
     oauth_config := oauth_config s; youtube_tokens := youtube_tokens s;
     youtube_service := youtube_service s; channel_info := channel_info s;
     live_broadcast_info := live_broadcast_info s |}.

Definition set_stream_start_time (v : option Z) (s : SessionState) :=
  {| session_id := session_id s; live_logs := live_logs s;
     streaming := streaming s; stream_start_time := v;
     current_stream_key := current_stream_key s;
     ffmpeg_thread := ffmpeg_thread s; processed_codes := processed_codes s;
     oauth_config := oauth_config s; youtube_tokens := youtube_tokens s;
     youtube_service := youtube_service s; channel_info := channel_info s;
     live_broadcast_info := live_broadcast_info s |}.

Definition set_current_stream_key (v : option json) (s : SessionState) :=
  {| session_id := session_id s; live_logs := live_logs s;
     streaming := streaming s; stream_start_time := stream_start_time s;
     current_stream_key := v;
     ffmpeg_thread := ffmpeg_thread s; processed_codes := processed_codes s;
     oauth_config := oauth_config s; youtube_tokens := youtube_tokens s;
     youtube_service := youtube_service s; channel_info := channel_info s;
     live_broadcast_info := live_broadcast_info s |}.

Definition set_ffmpeg_thread (v : option ffmpeg_args) (s : SessionState) :=
  {| session_id := session_id s; live_logs := live_logs s;
     streaming := streaming s; stream_start_time := stream_start_time s;
     current_stream_key := current_stream_key s;
     ffmpeg_thread := v; processed_codes := processed_codes s;
     oauth_config := oauth_config s; youtube_tokens := youtube_tokens s;
     youtube_service := youtube_service s; channel_info := channel_info s;
     live_broadcast_info := live_broadcast_info s |}.

Definition set_processed_codes (v : option (gset string)) (s : SessionState) :=
  {| session_id := session_id s; live_logs := live_logs s;
     streaming := streaming s; stream_start_time := stream_start_time s;
     current_stream_key := current_stream_key s;
     ffmpeg_thread := ffmpeg_thread s; processed_codes := v;
     oauth_config := oauth_config s; youtube_tokens := youtube_tokens s;
     youtube_service := youtube_service s; channel_info := channel_info s;
     live_broadcast_info := live_broadcast_info s |}.

Definition set_youtube_tokens (v : option json) (s : SessionState) :=
  {| session_id := session_id s; live_logs := live_logs s;
     streaming := streaming s; stream_start_time := stream_start_time s;
     current_stream_key := current_stream_key s;
     ffmpeg_thread := ffmpeg_thread s; processed_codes := processed_codes s;
     oauth_config := oauth_config s; youtube_tokens := v;
     youtube_service := youtube_service s; channel_info := channel_info s;
     live_broadcast_info := live_broadcast_info s |}.

Definition set_youtube_service (v : option Service) (s : SessionState) :=
  {| session_id := session_id s; live_logs := live_logs s;
     streaming := streaming s; stream_start_time := stream_start_time s;
     current_stream_key := current_stream_key s;
     ffmpeg_thread := ffmpeg_thread s; processed_codes := processed_codes s;
     oauth_config := oauth_config s; youtube_tokens := youtube_tokens s;
     youtube_service := v; channel_info := channel_info s;
     live_broadcast_info := live_broadcast_info s |}.

Definition set_channel_info (v : option json) (s : SessionState) :=
  {| session_id := session_id s; live_logs := live_logs s;
     streaming := streaming s; stream_start_time := stream_start_time s;
     current_stream_key := current_stream_key s;
     ffmpeg_thread := ffmpeg_thread s; processed_codes := processed_codes s;
     oauth_config := oauth_config s; youtube_tokens := youtube_tokens s;
     youtube_service := youtube_service s; channel_info := v;
     live_broadcast_info := live_broadcast_info s |}.

Definition set_live_broadcast_info (v : option json) (s : SessionState) :=
  {| session_id := session_id s; live_logs := live_logs s;
     streaming := streaming s; stream_start_time := stream_start_time s;
     current_stream_key := current_stream_key s;
     ffmpeg_thread := ffmpeg_thread s; processed_codes := processed_codes s;
     oauth_config := oauth_config s; youtube_tokens := youtube_tokens s;
     youtube_service := youtube_service s; channel_info := channel_info s;
     live_broadcast_info := v |}.

(** ** The event log *)

Section Orchestrator.

#[local] Set Default Proof Using "Type".

(** [clock n] is the [n]-th reading of [datetime.now()], in microseconds. *)
Variable clock : nat -> Z.
(** [d.isoformat()]. *)
Variable isoformat : Z -> string.
(** [d.strftime('%H:%M:%S')]. *)
Variable strftime_HMS : Z -> string.
(** [str(v)], as an f-string formats a value. *)
Variable py_str : json -> string.

Definition now (w : World) : Z := clock (w_ticks w).

(** [log_to_database]: one [INSERT] stamped with the current time; any
    exception is reported with [st.error] and swallowed. *)
Definition log_to_database (sid log_type message : string)
    (video_file stream_key channel_name : option string) (w : World) : World :=
  if w_db_ok w then
    add_log {| lr_timestamp := isoformat (now w);
               lr_session_id := sid;
               lr_log_type := log_type;
               lr_message := message;
               lr_video_file := video_file;
               lr_stream_key := stream_key;
               lr_channel_name := channel_name |} (tick w)
  else show (UiError "Error logging to database") w.

Definition view_of (r : log_row) : log_view :=
  {| lv_timestamp := lr_timestamp r; lv_log_type := lr_log_type r;
     lv_message := lr_message r; lv_video_file := lr_video_file r;
     lv_channel_name := lr_channel_name r |}.

(** [ORDER BY timestamp DESC]: the column is [TEXT], compared byte by
    byte. Rows with equal timestamps come out in an order the engine
    chooses; here the later row first. *)
Fixpoint insert_desc (r : log_row) (l : list log_row) : list log_row :=
  match l with
  | [] => [r]
  | x :: l' =>
      if String.ltb (lr_timestamp x) (lr_timestamp r)
      then r :: x :: l'
      else x :: insert_desc r l'
  end.

Definition order_by_timestamp_desc (rows : list log_row) : list log_row :=
  foldr insert_desc [] rows.

(** [LIMIT ?]: a negative bound means no bound. *)
Definition sql_limit {A} (n : Z) (l : list A) : list A :=
  if n <? 0 then l else take (Z.to_nat n) l.

Definition session_is (sid : string) (r : log_row) : bool :=
  String.eqb (lr_session_id r) sid.

(** The two [SELECT] statements of [get_logs_from_database]. *)
Definition select_logs (sid : option string) (limit : Z)
    (rows : list log_row) : list log_view :=
  if opt_truthy sid then
    view_of <$> sql_limit limit
      (order_by_timestamp_desc (List.filter (session_is (default "" sid)) rows))
  else
    view_of <$> sql_limit limit (order_by_timestamp_desc rows).

(** [get_logs_from_database(session_id=None, limit=100)]. *)
Definition get_logs_from_database (sid : option string) (limit : Z)
    (w : World) : list log_view * World :=
  if w_db_ok w then (select_logs sid limit (w_logs w), w)
  else ([], show (UiError "Error getting logs from database") w).

(** ** The encoder supervisor *)

(** [f"[{datetime.now().strftime('%H:%M:%S')}] {msg}"]. *)
Definition live_entry (t : Z) (msg : string) : string :=
  "[" ++ strftime_HMS t ++ "] " ++ msg.

(** The closure [log_callback] defined in the start handler: it appends
    to [st.session_state['live_logs']] and keeps the last 100 entries. *)
Definition log_callback (msg : string) (s : SessionState) (w : World)
    : SessionState * World :=
  let logs0 := default [] (live_logs s) in
  let logs1 := (logs0 ++ [live_entry (now w) msg])%list in
  let logs2 :=
    if (100 <? length logs1)%nat then slice_from (-100) logs1 else logs1 in
  (set_live_logs (Some logs2) s, tick w).

(** What [subprocess.Popen(cmd, ...)] and the read loop observe. *)
Inductive run_end :=
| Exited (returncode : Z)      (* end of output, [process.wait()] returns *)
| ReadFailed (e : string).     (* the loop raises *)

Inductive popen_outcome :=
| LaunchFailed (e : string)    (* [Popen] raises *)
| Ran (lines : list string) (ending : run_end).

Definition output_url (stream_key : json) (rtmp_url : option string) : string :=
  or_else rtmp_url ("rtmp://a.rtmp.youtube.com/live2/" ++ py_str stream_key).

Definition ffmpeg_cmd (video_path : string) (stream_key : json) (is_shorts : bool)
    (rtmp_url : option string) : list string :=
  let scale := if is_shorts then "-vf scale=720:1280" else "" in
  let cmd :=
    ["ffmpeg"; "-re"; "-stream_loop"; "-1"; "-i"; video_path;
     "-c:v"; "libx264"; "-preset"; "veryfast"; "-b:v"; "2500k";
     "-maxrate"; "2500k"; "-bufsize"; "5000k";
     "-g"; "60"; "-keyint_min"; "60";
     "-c:a"; "aac"; "-b:a"; "128k";
     "-f"; "flv"] in
  let cmd := if str_truthy scale then (cmd ++ split_ws scale)%list else cmd in
  (cmd ++ [output_url stream_key rtmp_url])%list.

Definition start_prefix : string := "üöÄ Starting FFmpeg: ".
Definition start_suffix : string := "... [RTMP URL hidden for security]".
Definition start_msg (cmd : list string) : string :=
  start_prefix ++ join " " (slice_to 8 cmd) ++ start_suffix.
Definition end_msg : string := "‚úÖ Streaming completed successfully".
Definition error_msg (e : string) : string := "‚ùå FFmpeg Error: " ++ e.
Definition final_msg : string := "‚èπÔ∏è Streaming session ended".

Section Run.

(** The state the callback works on, and the callback. *)
Context {T : Type}.
Variable callback : string -> T -> World -> T * World.

(** [log_callback(msg)] followed by
    [if session_id: log_to_database(session_id, log_type, msg, video_path)]. *)
Definition log_both (sid : option string) (log_type msg video_path : string)
    (tw : T * World) : T * World :=
  let (t, w) := callback msg tw.1 tw.2 in
  if opt_truthy sid
  then (t, log_to_database (default "" sid) log_type msg (Some video_path) None None w)
  else (t, w).

(** [run_ffmpeg(video_path, stream_key, is_shorts, log_callback,
    rtmp_url=None, session_id=None)]; [popen] is the behaviour of the
    child process for a command line. *)
Definition run_ffmpeg (popen : list string -> popen_outcome)
    (video_path : string) (stream_key : json) (is_shorts : bool)
    (rtmp_url : option string) (sid : option string)
    (tw : T * World) : T * World :=
  let cmd := ffmpeg_cmd video_path stream_key is_shorts rtmp_url in
  let tw := log_both sid "INFO" (start_msg cmd) video_path tw in
  let tw :=
    match popen cmd with
    | LaunchFailed e => log_both sid "ERROR" (error_msg e) video_path tw
    | Ran lines ending =>
        let tw :=
          foldl (fun acc line => log_both sid "FFMPEG" (strip line) video_path acc)
                tw lines in
        match ending with
        | Exited _ => log_both sid "INFO" end_msg video_path tw
        | ReadFailed e => log_both sid "ERROR" (error_msg e) video_path tw
        end
    end in
  log_both sid "INFO" final_msg video_path tw.

End Run.

(** ** The OAuth code exchange *)

(** [requests.post(url, data=...)], given the requests sent before. *)
Variable requests_post : list post_request -> post_request -> result http_response.
(** [Credentials(...)] and [build('youtube', 'v3', ...)]; [None] when one
    of them raises. *)
Variable build_service : json -> option Service.

(** The [token_data] form and the URL it is posted to. *)
Definition token_request (client_config : json) (auth_code : string)
    : result post_request :=
  cid ← Json.getitem client_config "client_id";
  secret ← Json.getitem client_config "client_secret";
  uris ← Json.getitem client_config "redirect_uris";
  uri ← Json.getitem0 uris;
  url ← Json.getitem client_config "token_uri";
  Ok {| pr_url := url; pr_client_id := cid; pr_client_secret := secret;
        pr_code := auth_code; pr_grant_type := "authorization_code";
        pr_redirect_uri := uri |}.

(** [exchange_code_for_tokens(client_config, auth_code)]. *)
Definition exchange_code_for_tokens (client_config : json) (auth_code : string)
    (w : World) : option json * World :=
  match token_request client_config auth_code with
  | Raise e => (None, show (UiError ("Error exchanging code for tokens: " ++ e)) w)
  | Ok req =>
      let w1 := sent req w in
      match requests_post (w_http w) req with
      | Raise e => (None, show (UiError ("Error exchanging code for tokens: " ++ e)) w1)
      | Ok response =>
          if resp_status_code response =? 200 then
            match resp_json response with
            | Ok tokens => (Some tokens, w1)
            | Raise e =>
                (None, show (UiError ("Error exchanging code for tokens: " ++ e)) w1)
            end
          else
            (None, show (UiError ("Token exchange failed: " ++ resp_text response)) w1)
      end
  end.

(** [create_youtube_service(credentials_dict)]. *)
Definition create_youtube_service (credentials_dict : json) (w : World)
    : option Service * World :=
  match build_service credentials_dict with
  | Some service => (Some service, w)
  | None => (None, show (UiError "Error creating YouTube service") w)
  end.

(** [get_channel_info(service)] with [mine=True]. *)
Definition get_channel_info (service : Service) (w : World) : json * World :=
  match (response ← channels_list_mine service;
         Json.get_default response "items" (JArr [])) with
  | Ok items => (items, w)
  | Raise e => (JArr [], show (UiError ("Error fetching channel info: " ++ e)) w)
  end.

(** [save_channel_auth(channel_name, channel_id, auth_data)]. *)
Definition save_channel_auth (channel_name channel_id auth_data : json)
    (w : World) : bool * World :=
  if w_db_ok w then
    let created := isoformat (now w) in
    let w1 := tick w in
    let used := isoformat (now w1) in
    (true, add_saved {| sc_channel_name := channel_name;
                        sc_channel_id := channel_id;
                        sc_auth_data := auth_data;
                        sc_created_at := created;
                        sc_last_used := used |} (tick w1))
  else (false, show (UiError "Error saving channel auth") w).

(** The [creds_dict] literal built from the tokens and the configuration. *)
Definition creds_dict_of (tokens oauth : json) : result json :=
  access ← Json.getitem tokens "access_token";
  refresh ← Json.get tokens "refresh_token";
  token_uri ← Json.getitem oauth "token_uri";
  client_id ← Json.getitem oauth "client_id";
  client_secret ← Json.getitem oauth "client_secret";
  Ok (JObj [("access_token", access); ("refresh_token", refresh);
            ("token_uri", token_uri); ("client_id", client_id);
            ("client_secret", client_secret)]).

(** How a run of the authorization code ends. *)
Inductive auth_outcome :=
| AuthNoCode                 (* no code in the URL, or an empty input *)
| AuthIgnored                (* the code is in [processed_codes] *)
| AuthNoConfig               (* no [oauth_config] in the session *)
| AuthExchangeFailed         (* no tokens *)
| AuthServiceFailed          (* no service object *)
| AuthNoChannels             (* the account has no channel *)
| AuthConnected
| AuthCrashed (e : string).  (* an exception leaves the handler *)

(** [auto_process_auth_code()]; [query_code] is [st.query_params['code']]
    when present. On [AuthConnected] the query parameters are cleared and
    the script reruns. *)
Definition auto_process_auth_code (query_code : option string)
    (s : SessionState) (w : World) : auth_outcome * SessionState * World :=
  match query_code with
  | None => (AuthNoCode, s, w)
  | Some auth_code =>
      let codes := default ∅ (processed_codes s) in
      let s := set_processed_codes (Some codes) s in
      if decide (auth_code ∈ codes) then (AuthIgnored, s, w)
      else
        let w := show (UiInfo "Processing authorization code from URL...") w in
        match oauth_config s with
        | None =>
            (AuthNoConfig, s,
             show (UiError "OAuth configuration not found. Please upload OAuth JSON first.") w)
        | Some oauth =>
            let (tokens_opt, w) := exchange_code_for_tokens oauth auth_code w in
            match tokens_opt with
            | Some tokens =>
                if Json.truthy tokens then
                  let s := set_youtube_tokens (Some tokens) s in
                  let s := set_processed_codes (Some ({[auth_code]} ∪ codes)) s in
                  match creds_dict_of tokens oauth with
                  | Raise e => (AuthCrashed e, s, w)
                  | Ok creds_dict =>
                      let (service_opt, w) := create_youtube_service creds_dict w in
                      match service_opt with
                      | None =>
                          (AuthServiceFailed, s,
                           show (UiError "Failed to create YouTube service") w)
                      | Some service =>
                          let (channels, w) := get_channel_info service w in
                          if Json.truthy channels then
                            match Json.getitem0 channels with
                            | Raise e => (AuthCrashed e, s, w)
                            | Ok channel =>
                                let s := set_youtube_service (Some service) s in
                                let s := set_channel_info (Some channel) s in
                                match (snippet ← Json.getitem channel "snippet";
                                       title ← Json.getitem snippet "title";
                                       id ← Json.getitem channel "id";
                                       Ok (title, id)) with
                                | Raise e => (AuthCrashed e, s, w)
                                | Ok (title, id) =>
                                    let (_, w) := save_channel_auth title id creds_dict w in
                                    (AuthConnected, s,
                                     show (UiSuccess ("Successfully connected to: " ++ py_str title)) w)
                                end
                            end
                          else (AuthNoChannels, s, w)
                      end
                  end
                else
                  (AuthExchangeFailed, s,
                   show (UiError "Failed to exchange code for tokens") w)
            | None =>
                (AuthExchangeFailed, s,
                 show (UiError "Failed to exchange code for tokens") w)
            end
        end
  end.

(** The button [Exchange Code for Tokens] of [main]: [oauth] is the
    configuration loaded from the uploaded file, [auth_code] the text
    input. *)
Definition exchange_button (oauth : json) (auth_code : string)
    (s : SessionState) (w : World) : auth_outcome * SessionState * World :=
  if str_truthy auth_code then
    let (tokens_opt, w) := exchange_code_for_tokens oauth auth_code w in
    match tokens_opt with
    | Some tokens =>
        if Json.truthy tokens then
          let w := show (UiSuccess "Tokens obtained successfully!") w in
          let s := set_youtube_tokens (Some tokens) s in
          match creds_dict_of tokens oauth with
          | Raise e => (AuthCrashed e, s, w)
          | Ok creds_dict =>
              let (service_opt, w) := create_youtube_service creds_dict w in
              match service_opt with
              | None => (AuthServiceFailed, s, w)
              | Some service =>
                  let (channels, w) := get_channel_info service w in
                  if Json.truthy channels then
                    match (channel ← Json.getitem0 channels;
                           snippet ← Json.getitem channel "snippet";
                           title ← Json.getitem snippet "title";
                           Ok (channel, title)) with
                    | Raise e => (AuthCrashed e, s, w)
                    | Ok (channel, title) =>
                        let w := show (UiSuccess ("Connected to: " ++ py_str title)) w in
                        let s := set_youtube_service (Some service) s in
                        let s := set_channel_info (Some channel) s in
                        match Json.getitem channel "id" with
                        | Raise e => (AuthCrashed e, s, w)
                        | Ok id =>
                            let (_, w) := save_channel_auth title id creds_dict w in
                            (AuthConnected, s, w)
                        end
                    end
                  else (AuthNoChannels, s, w)
              end
          end
        else (AuthExchangeFailed, s, w)
    | None => (AuthExchangeFailed, s, w)
    end
  else (AuthNoCode, s, show (UiError "Please enter the authorization code") w).

(** ** The broadcast provisioner *)

Definition stream_body (title description : string) : json :=
  JObj [("snippet", JObj [("title", JStr (title ++ " - Stream"));
                          ("description", JStr description)]);
        ("cdn", JObj [("resolution", JStr "1080p");
                      ("frameRate", JStr "30fps");
                      ("ingestionType", JStr "rtmp")])].

Definition broadcast_body (title description : string) (scheduled_start_time : Z)
    (tags : list string) (category_id privacy_status : string)
    (made_for_kids : bool) : json :=
  let snippet :=
    [("title", JStr title); ("description", JStr description);
     ("scheduledStartTime", JStr (isoformat scheduled_start_time))] in
  let snippet :=
    match tags with
    | [] => snippet
    | _ => (snippet ++ [("tags", JArr (JStr <$> tags))])%list
    end in
  let snippet :=
    if str_truthy category_id
    then (snippet ++ [("categoryId", JStr category_id)])%list
    else snippet in
  JObj [("snippet", JObj snippet);
        ("status", JObj [("privacyStatus", JStr privacy_status);
                         ("selfDeclaredMadeForKids", JBool made_for_kids)]);
        ("contentDetails", JObj [("enableAutoStart", JBool true);
                                 ("enableAutoStop", JBool true)])].

(** The dict that [create_live_stream] returns. *)
Definition live_info_of (stream_response broadcast_response : json) : result json :=
  cdn ← Json.getitem stream_response "cdn";
  info ← Json.getitem cdn "ingestionInfo";
  stream_key ← Json.getitem info "streamName";
  stream_url ← Json.getitem info "ingestionAddress";
  broadcast_id ← Json.getitem broadcast_response "id";
  stream_id ← Json.getitem stream_response "id";
  Ok (JObj [("stream_key", stream_key);
            ("stream_url", stream_url);
            ("broadcast_id", broadcast_id);
            ("stream_id", stream_id);
            ("watch_url",
             JStr ("https://www.youtube.com/watch?v=" ++ py_str broadcast_id));
            ("studio_url",
             JStr ("https://studio.youtube.com/video/" ++ py_str broadcast_id
                   ++ "/livestreaming"));
            ("broadcast_response", broadcast_response)]).

Definition create_failed (e : string) (w : World) : option json * World :=
  (None, show (UiError ("Error creating live stream: " ++ e)) w).

(** [create_live_stream(service, title, description, scheduled_start_time,
    tags, category_id, privacy_status, made_for_kids)]. *)
Definition create_live_stream (service : Service) (title description : string)
    (scheduled_start_time : Z) (tags : list string)
    (category_id privacy_status : string) (made_for_kids : bool)
    (w : World) : option json * World :=
  let sbody := stream_body title description in
  let w := called (StreamsInsert sbody) w in
  match liveStreams_insert service sbody with
  | Raise e => create_failed e w
  | Ok stream_response =>
      let bbody := broadcast_body title description scheduled_start_time tags
                     category_id privacy_status made_for_kids in
      let w := called (BroadcastsInsert bbody) w in
      match liveBroadcasts_insert service bbody with
      | Raise e => create_failed e w
      | Ok broadcast_response =>
          match (id ← Json.getitem broadcast_response "id";
                 stream_id ← Json.getitem stream_response "id";
                 Ok (id, stream_id)) with
          | Raise e => create_failed e w
          | Ok (id, stream_id) =>
              let w := called (BroadcastsBind id stream_id) w in
              match liveBroadcasts_bind service id stream_id with
              | Raise e => create_failed e w
              | Ok _ =>
                  match live_info_of stream_response broadcast_response with
                  | Raise e => create_failed e w
                  | Ok live_info => (Some live_info, w)
                  end
              end
          end
      end
  end.

Definition key_failed (e : string) (w : World) : option json * World :=
  (None, show (UiError ("Error getting broadcast stream key: " ++ e)) w).

(** The dict that [get_broadcast_stream_key] returns. *)
Definition stream_info_of (stream_items stream_id : json) : result json :=
  first ← Json.getitem0 stream_items;
  cdn ← Json.getitem first "cdn";
  stream_info ← Json.getitem cdn "ingestionInfo";
  stream_key ← Json.getitem stream_info "streamName";
  stream_url ← Json.getitem stream_info "ingestionAddress";
  Ok (JObj [("stream_key", stream_key);
            ("stream_url", stream_url);
            ("stream_id", stream_id)]).

(** [broadcast_response['items'][0]['contentDetails'].get('boundStreamId')]. *)
Definition bound_stream_id (items : json) : result json :=
  first ← Json.getitem0 items;
  details ← Json.getitem first "contentDetails";
  Json.get details "boundStreamId".

(** [get_broadcast_stream_key(service, broadcast_id)]. *)
Definition get_broadcast_stream_key (service : Service) (broadcast_id : json)
    (w : World) : option json * World :=
  let w := called (BroadcastsList broadcast_id) w in
  match (broadcast_response ← liveBroadcasts_list service broadcast_id;
         Json.getitem broadcast_response "items") with
  | Raise e => key_failed e w
  | Ok items =>
      if negb (Json.truthy items) then (None, w)
      else
        match bound_stream_id items with
        | Raise e => key_failed e w
        | Ok stream_id =>
            if negb (Json.truthy stream_id) then (None, w)
            else
              let w := called (StreamsList stream_id) w in
              match (stream_response ← liveStreams_list service stream_id;
                     Json.getitem stream_response "items") with
              | Raise e => key_failed e w
              | Ok stream_items =>
                  if Json.truthy stream_items then
                    match stream_info_of stream_items stream_id with
                    | Raise e => key_failed e w
                    | Ok stream_info => (Some stream_info, w)
                    end
                  else (None, w)
              end
        end
  end.

(** ** The button handlers of [main] *)

(** The widgets read by [Create YouTube Live]. *)
Record stream_form := {
  f_title : string;
  f_description : string;
  f_tags_input : string;
  f_category_id : string;
  f_privacy_status : string;
  f_made_for_kids : bool
}.

(** [[tag.strip() for tag in tags_input.split(",") if tag.strip()]
    if tags_input else []]. *)
Definition parse_tags (tags_input : string) : list string :=
  if str_truthy tags_input
  then List.filter str_truthy (strip <$> split_on comma tags_input)
  else [].

(** The [except Exception as e] branch of the provisioning buttons. *)
Definition report_error (prefix e : string) (s : SessionState) (w : World) : World :=
  let error_msg := prefix ++ e in
  let w := show (UiError error_msg) w in
  log_to_database (session_id s) "ERROR" error_msg None None None w.

(** The button [Create YouTube Live]. *)
Definition create_live_button (form : stream_form) (s : SessionState)
    (w : World) : SessionState * World :=
  let tags := parse_tags (f_tags_input form) in
  match youtube_service s with
  | None =>
      (s, report_error "Error creating YouTube Live: " "'youtube_service'" s w)
  | Some service =>
      let t := now w in
      let w := tick w in
      match add_seconds t 30 with
      | Raise e => (s, report_error "Error creating YouTube Live: " e s w)
      | Ok scheduled_time =>
          let (live_info_opt, w) :=
            create_live_stream service (f_title form) (f_description form)
              scheduled_time tags (f_category_id form) (f_privacy_status form)
              (f_made_for_kids form) w in
          match live_info_opt with
          | None => (s, w)
          | Some live_info =>
              let w := show (UiSuccess "YouTube Live Broadcast Created Successfully!") w in
              match Json.getitem live_info "stream_key" with
              | Raise e => (s, report_error "Error creating YouTube Live: " e s w)
              | Ok key =>
                  let s := set_current_stream_key (Some key) s in
                  let s := set_live_broadcast_info (Some live_info) s in
                  match Json.getitem live_info "watch_url" with
                  | Raise e => (s, report_error "Error creating YouTube Live: " e s w)
                  | Ok url =>
                      (s, log_to_database (session_id s) "INFO"
                            ("YouTube Live created: " ++ py_str url) None None None w)
                  end
              end
          end
      end
  end.

(** [save_streaming_session(...)]: [INSERT OR REPLACE] keyed by the
    session id. *)
Definition save_streaming_session (sid video_file stream_title
    stream_description tags category privacy_status : string)
    (made_for_kids : bool) (channel_name : json) (w : World) : World :=
  if w_db_ok w then
    put_session sid
      {| sr_start_time := isoformat (now w);
         sr_video_file := video_file;
         sr_stream_title := stream_title;
         sr_stream_description := stream_description;
         sr_tags := tags;
         sr_category := category;
         sr_privacy_status := privacy_status;
         sr_made_for_kids := made_for_kids;
         sr_channel_name := channel_name |} (tick w)
  else show (UiError "Error saving streaming session") w.

(** What [Start Streaming] reads from the page. *)
Record start_inputs := {
  si_video_path : option string;
  si_stream_title : string;
  si_stream_description : string;
  si_tags : list string;
  si_category_id : string;
  si_privacy_status : string;
  si_made_for_kids : bool;
  si_is_shorts : bool;
  si_custom_rtmp : string
}.

Inductive start_outcome :=
| StartNoVideo               (* [st.error]: no video *)
| StartNoKey                 (* [st.error]: no stream key *)
| StartCrashed (e : string)  (* an exception leaves the handler *)
| StartStarted.              (* [st.success]: thread started *)

(** [st.session_state.get('channel_info', {}).get('snippet', {})
    .get('title', 'Unknown')]. *)
Definition channel_title (s : SessionState) : result json :=
  let info := default (JObj []) (channel_info s) in
  snippet ← Json.get_default info "snippet" (JObj []);
  Json.get_default snippet "title" (JStr "Unknown").

(** The button [Start Streaming]. *)
Definition start_button (inp : start_inputs) (s : SessionState) (w : World)
    : start_outcome * SessionState * World :=
  let stream_key := default (JStr "") (current_stream_key s) in
  if negb (opt_truthy (si_video_path inp)) then
    (StartNoVideo, s, show (UiError "Please select or upload a video!") w)
  else if negb (Json.truthy stream_key) then
    (StartNoKey, s, show (UiError "Stream key is required!") w)
  else
    let video_path := default "" (si_video_path inp) in
    match channel_title s with
    | Raise e => (StartCrashed e, s, w)
    | Ok channel_name =>
        let w := save_streaming_session (session_id s) video_path
                   (si_stream_title inp) (si_stream_description inp)
                   (join ", " (si_tags inp)) (si_category_id inp)
                   (si_privacy_status inp) (si_made_for_kids inp)
                   channel_name w in
        let s := set_streaming (Some true) s in
        let s := set_stream_start_time (Some (now w)) s in
        let w := tick w in
        let s := set_live_logs (Some []) s in
        let args :=
          {| fa_video_path := video_path;
             fa_stream_key := stream_key;
             fa_is_shorts := si_is_shorts inp;
             fa_rtmp_url := if str_truthy (si_custom_rtmp inp)
                            then Some (si_custom_rtmp inp) else None;
             fa_session_id := session_id s |} in
        let s := set_ffmpeg_thread (Some args) s in
        let w := perform (ThreadStart args) w in
        let w := show (UiSuccess "Streaming started!") w in
        let w := log_to_database (session_id s) "INFO"
                   ("Streaming started: " ++ video_path) None None None w in
        (StartStarted, s, w)
    end.

(** The body of the thread that [Start Streaming] starts. *)
Definition ffmpeg_thread_body (popen : list string -> popen_outcome)
    (a : ffmpeg_args) (sw : SessionState * World) : SessionState * World :=
  run_ffmpeg log_callback popen (fa_video_path a) (fa_stream_key a)
    (fa_is_shorts a) (fa_rtmp_url a) (Some (fa_session_id a)) sw.

(** The button [Stop Streaming]. *)
Definition stop_button (s : SessionState) (w : World) : SessionState * World :=
  let s := set_streaming (Some false) s in
  let s := set_stream_start_time None s in
  let w := perform (System "pkill ffmpeg") w in
  let w := if decide ("temp_video.mp4" ∈ w_files w)
           then remove_file "temp_video.mp4" w else w in
  let w := show (UiWarning "Streaming stopped!") w in
  let w := log_to_database (session_id s) "INFO" "Streaming stopped by user"
             None None None w in
  (s, w).

(** ** Configuration files and the authorization URL *)

(** [d.strftime('%Y%m%d_%H%M%S')]. *)
Variable strftime_stamp : Z -> string.
(** [urllib.parse.quote(s)]. *)
Variable quote : string -> string.

(** [k in c] for a string [k]: a key of a dict, a substring of a string,
    an element of a list; other values are not iterable. *)
Definition py_in (k : string) (c : json) : result bool :=
  match c with
  | JObj fields => Ok (bool_decide (is_Some (Json.assoc k fields)))
  | JStr s => Ok (contains k s)
  | JArr items =>
      Ok (existsb (fun x => match x with
                            | JStr s => String.eqb s k
                            | _ => false
                            end) items)
  | _ => Raise "TypeError"
  end.

(** The loop over [enumerate(config['channels'])], from index [i]. *)
Fixpoint validate_channels (i : nat) (channels : list json)
    : result (bool * string) :=
  match channels with
  | [] => Ok (true, "Valid configuration")
  | channel :: rest =>
      has_name ← py_in "name" channel;
      if negb has_name then
        Ok (false, "Channel " ++ pretty (S i) ++ " missing required field: name")
      else
        has_key ← py_in "stream_key" channel;
        if negb has_key then
          Ok (false,
              "Channel " ++ pretty (S i) ++ " missing required field: stream_key")
        else validate_channels (S i) rest
  end.

(** [validate_channel_config(config)]; it has no [try], an exception
    leaves it. *)
Definition validate_channel_config (config : json) : result (bool * string) :=
  has_channels ← py_in "channels" config;
  if negb has_channels then Ok (false, "Missing required field: channels")
  else
    channels ← Json.getitem config "channels";
    match channels with
    | JArr items => validate_channels 0 items
    | _ => Ok (false, "Channels must be a list")
    end.

(** [load_google_oauth_config(json_file)]; [loaded] is the result of
    [json.load(json_file)]. *)
Definition load_google_oauth_config (loaded : result json) (w : World)
    : option json * World :=
  match (config ← loaded;
         has_web ← py_in "web" config;
         if has_web : bool then
           (web ← Json.getitem config "web"; Ok (Some web))
         else
           (has_installed ← py_in "installed" config;
            if has_installed : bool then
              (installed ← Json.getitem config "installed"; Ok (Some installed))
            else Ok None)) with
  | Ok (Some c) => (Some c, w)
  | Ok None => (None, show (UiError "Invalid Google OAuth JSON format") w)
  | Raise e => (None, show (UiError ("Error loading Google OAuth JSON: " ++ e)) w)
  end.

(** [urllib.parse.quote(v)] of a Python value: strings only. *)
Definition quote_value (v : json) : result string :=
  match v with
  | JStr s => Ok (quote s)
  | _ => Raise "TypeError"
  end.

Definition oauth_scope : string := "https://www.googleapis.com/auth/youtube.force-ssl".

(** [generate_auth_url(client_config)]. *)
Definition generate_auth_url (client_config : json) (w : World)
    : option string * World :=
  match (auth_uri ← Json.getitem client_config "auth_uri";
         client_id ← Json.getitem client_config "client_id";
         uris ← Json.getitem client_config "redirect_uris";
         uri ← Json.getitem0 uris;
         redirect ← quote_value uri;
         Ok (py_str auth_uri ++ "?"
             ++ "client_id=" ++ py_str client_id ++ "&"
             ++ "redirect_uri=" ++ redirect ++ "&"
             ++ "scope=" ++ quote (join " " [oauth_scope]) ++ "&"
             ++ "response_type=code&"
             ++ "access_type=offline&"
             ++ "prompt=consent")) with
  | Ok url => (Some url, w)
  | Raise e => (None, show (UiError ("Error generating auth URL: " ++ e)) w)
  end.

(** ** More of the provisioner *)

Definition stream_key_body (stamp : string) : json :=
  JObj [("snippet", JObj [("title", JStr ("Stream Key Generator - " ++ stamp))]);
        ("cdn", JObj [("resolution", JStr "1080p");
                      ("frameRate", JStr "30fps");
                      ("ingestionType", JStr "rtmp")])].

(** [get_stream_key_only(service)]. *)
Definition get_stream_key_only (service : Service) (w : World)
    : option json * World :=
  let body := stream_key_body (strftime_stamp (now w)) in
  let w := tick w in
  let w := called (StreamsInsert body) w in
  match (stream_response ← liveStreams_insert service body;
         cdn ← Json.getitem stream_response "cdn";
         info ← Json.getitem cdn "ingestionInfo";
         stream_key ← Json.getitem info "streamName";
         stream_url ← Json.getitem info "ingestionAddress";
         stream_id ← Json.getitem stream_response "id";
         Ok (JObj [("stream_key", stream_key);
                   ("stream_url", stream_url);
                   ("stream_id", stream_id)])) with
  | Ok info => (Some info, w)
  | Raise e => (None, show (UiError ("Error getting stream key: " ++ e)) w)
  end.

(** ** The table [saved_channels]

    The table is the list of its rows by [id]; [channel_name] is
    [UNIQUE], and [INSERT OR REPLACE] deletes the row of that name before it
    inserts. The [auth_data] column holds [json.dumps] of a value, read
    back with [json.loads]; the value itself stands for it. *)

Record channel_row := {
  cr_channel_name : string;
  cr_channel_id : string;
  cr_auth_data : json;
  cr_created_at : string;
  cr_last_used : string
}.

Definition other_channel (name : string) (r : channel_row) : bool :=
  negb (String.eqb (cr_channel_name r) name).

(** The statement of [save_channel_auth], for string columns. *)
Definition insert_or_replace_channel (r : channel_row)
    (table : list channel_row) : list channel_row :=
  (List.filter (other_channel (cr_channel_name r)) table ++ [r])%list.

(** [save_channel_auth(channel_name, channel_id, auth_data)] on the table. *)
Definition save_channel_row (channel_name channel_id : string) (auth_data : json)
    (table : list channel_row) (w : World)
    : bool * list channel_row * World :=
  if w_db_ok w then
    let created := isoformat (now w) in
    let w1 := tick w in
    let used := isoformat (now w1) in
    (true,
     insert_or_replace_channel
       {| cr_channel_name := channel_name; cr_channel_id := channel_id;
          cr_auth_data := auth_data; cr_created_at := created;
          cr_last_used := used |} table,
     tick w1)
  else (false, table, show (UiError "Error saving channel auth") w).

(** [ORDER BY last_used DESC], as [insert_desc] for the logs. *)
Fixpoint insert_channel_desc (r : channel_row) (l : list channel_row)
    : list channel_row :=
  match l with
  | [] => [r]
  | x :: l' =>
      if String.ltb (cr_last_used x) (cr_last_used r)
      then r :: x :: l'
      else x :: insert_channel_desc r l'
  end.

Definition channel_dict (r : channel_row) : json :=
  JObj [("name", JStr (cr_channel_name r)); ("id", JStr (cr_channel_id r));
        ("auth", cr_auth_data r); ("last_used", JStr (cr_last_used r))].

(** [load_saved_channels()]. *)
Definition load_saved_channels (table : list channel_row) (w : World)
    : list json * World :=
  if w_db_ok w then (channel_dict <$> foldr insert_channel_desc [] table, w)
  else ([], show (UiError "Error loading saved channels") w).

Definition touch_channel (name stamp : string) (r : channel_row) : channel_row :=
  if String.eqb (cr_channel_name r) name then
    {| cr_channel_name := cr_channel_name r; cr_channel_id := cr_channel_id r;
       cr_auth_data := cr_auth_data r; cr_created_at := cr_created_at r;
       cr_last_used := stamp |}
  else r.

(** [update_channel_last_used(channel_name)]. *)
Definition update_channel_last_used (channel_name : string)
    (table : list channel_row) (w : World) : list channel_row * World :=
  if w_db_ok w then
    (touch_channel channel_name (isoformat (now w)) <$> table, tick w)
  else (table, show (UiError "Error updating channel last used") w).

(** ** Reading an outcome *)

(** The row that [Stop Streaming] logs for session [sid] at time [stamp]. *)
Definition stopped_row (sid stamp : string) : log_row :=
  {| lr_timestamp := stamp; lr_session_id := sid; lr_log_type := "INFO";
     lr_message := "Streaming stopped by user"; lr_video_file := None;
     lr_stream_key := None; lr_channel_name := None |}.

(** A callback that keeps every message it is given, in order. *)
Definition record_callback (msg : string) (seen : list string) (w : World)
    : list string * World :=
  ((seen ++ [msg])%list, w).

(** Whether the character [c] occurs in [s]. *)
Fixpoint has_char (c : Ascii.ascii) (s : string) : bool :=
  match s with
  | EmptyString => false
  | String x s' => Ascii.eqb x c || has_char c s'
  end.

(** A tag as [parse_tags] produces them. *)
Definition clean_tag (tag : string) : Prop :=
  str_truthy tag = true /\ strip tag = tag /\ has_char comma tag = false.

(** A channel entry that passes the two membership tests of
    [validate_channel_config]. *)
Definition channel_entry_ok (channel : json) : Prop :=
  py_in "name" channel = Ok true /\ py_in "stream_key" channel = Ok true.

(** Rows of [saved_channels] from the most recently used on. *)
Definition recent_first (a b : channel_row) : Prop :=
  String.leb (cr_last_used b) (cr_last_used a) = true.

(** [body[section][key]] of a request body. *)
Definition body_field (body : json) (section key : string) : result json :=
  part ← Json.getitem body section;
  Json.getitem part key.

(** The outcomes that follow a successful exchange of the code. *)
Definition tokens_obtained (o : auth_outcome) : bool :=
  match o with
  | AuthConnected | AuthServiceFailed | AuthNoChannels | AuthCrashed _ => true
  | AuthNoCode | AuthIgnored | AuthNoConfig | AuthExchangeFailed => false
  end.

(** ** Orders on log entries *)

(** [a] may come before [b] when the newest entry is first. *)
Definition newer_first (a b : log_view) : Prop :=
  String.leb (lv_timestamp b) (lv_timestamp a) = true.

(** [a] may come before [b] when the oldest entry is first. *)
Definition older_first (a b : log_view) : Prop :=
  String.leb (lv_timestamp a) (lv_timestamp b) = true.

(** The same order, on rows. *)
Definition row_newer_first (a b : log_row) : Prop :=
  newer_first (view_of a) (view_of b).

(** Row [a] was stamped strictly before row [b]. *)
Definition stamped_before (a b : log_row) : Prop :=
  String.ltb (lr_timestamp a) (lr_timestamp b) = true.

(** ** Reading a request *)

(** [body['snippet']['scheduledStartTime']] of a broadcast request. *)
Definition scheduled_start_of (body : json) : result json :=
  snippet ← Json.getitem body "snippet";
  Json.getitem snippet "scheduledStartTime".

(** ** Example inputs *)

Definition ex_row (stamp message : string) : log_row :=
  {| lr_timestamp := stamp; lr_session_id := "session_20240101_000000";
     lr_log_type := "FFMPEG"; lr_message := message;
     lr_video_file := Some "demo.mp4"; lr_stream_key := None;
     lr_channel_name := None |}.

Definition ex_rows : list log_row :=
  [ex_row "2024-01-01T00:00:01.000000" "frame=    1";
   ex_row "2024-01-01T00:00:02.000000" "frame=   31";
   ex_row "2024-01-01T00:00:03.000000" "frame=   61"].

Definition ex_inputs : start_inputs :=
  {| si_video_path := Some "demo.mp4"; si_stream_title := "Live Stream";
     si_stream_description := "Live streaming session"; si_tags := ["a"; "b"];
     si_category_id := "20"; si_privacy_status := "unlisted";
     si_made_for_kids := false; si_is_shorts := false; si_custom_rtmp := "" |}.

Definition ex_clock : nat -> Z := fun n => Z.of_nat n * 1000000.
Definition ex_isoformat : Z -> string := fun d => "T+" ++ pretty d.
Definition ex_strftime : Z -> string := fun d => pretty (d / 1000000).
Definition ex_str (v : json) : string :=
  match v with
  | JStr s => s
  | JNum n => pretty n
  | JBool true => "True"
  | JBool false => "False"
  | JNull => "None"
  | JArr _ => "[...]"
  | JObj _ => "{...}"
  end.

Definition ex_state : SessionState :=
  {| session_id := "session_20240101_000000"; live_logs := Some [];
     streaming := None; stream_start_time := None;
     current_stream_key := Some (JStr "ABCD-1234-EFGH");
     ffmpeg_thread := None; processed_codes := None; oauth_config := None;
     youtube_tokens := None; youtube_service := None; channel_info := None;
     live_broadcast_info := None |}.

Definition ex_world : World :=
  {| w_ticks := 0; w_db_ok := true; w_logs := []; w_sessions := ∅;
     w_saved := []; w_files := ∅; w_os := []; w_http := []; w_api := [];
     w_ui := [] |}.

Definition ex_oauth : json :=
  JObj [("client_id", JStr "1234.apps.googleusercontent.com");
        ("client_secret", JStr "GOCSPX-secret");
        ("auth_uri", JStr "https://accounts.google.com/o/oauth2/auth");
        ("token_uri", JStr "https://oauth2.googleapis.com/token");
        ("redirect_uris", JArr [JStr "http://localhost:8501"])].

Definition ex_tokens : json :=
  JObj [("access_token", JStr "ya29.a0"); ("refresh_token", JStr "1//0g")].

(** A token endpoint that answers every request with tokens. *)
Definition ex_post (_ : list post_request) (_ : post_request)
    : result http_response :=
  Ok {| resp_status_code := 200; resp_text := ""; resp_json := Ok ex_tokens |}.

Definition ex_stream : json :=
  JObj [("id", JStr "stream-1");
        ("cdn", JObj [("ingestionInfo",
                       JObj [("streamName", JStr "ABCD-1234-EFGH");
                             ("ingestionAddress",
                              JStr "rtmp://a.rtmp.youtube.com/live2")])])].

(** A platform with one channel, whose broadcast is bound to [ex_stream]. *)
Definition ex_service : Service :=
  {| liveStreams_insert := fun _ => Ok ex_stream;
     liveStreams_list := fun _ => Ok (JObj [("items", JArr [ex_stream])]);
     liveBroadcasts_insert := fun _ => Ok (JObj [("id", JStr "broadcast-1")]);
     liveBroadcasts_bind := fun _ _ => Ok (JObj [("id", JStr "broadcast-1")]);
     liveBroadcasts_list := fun _ =>
       Ok (JObj [("items",
                  JArr [JObj [("contentDetails",
                               JObj [("boundStreamId", JStr "stream-1")])]])]);
     channels_list_mine :=
       Ok (JObj [("items",
                  JArr [JObj [("id", JStr "UC123");
                              ("snippet", JObj [("title", JStr "Demo")])]])]) |}.

Definition ex_build (_ : json) : option Service := Some ex_service.

Definition ex_form : stream_form :=
  {| f_title := "Live Stream"; f_description := "Live streaming session";
     f_tags_input := "a, b"; f_category_id := "20";
     f_privacy_status := "unlisted"; f_made_for_kids := false |}.

Definition ex_code : string := "4/0AX4XfWh".

(** A session that is streaming. *)
Definition ex_active : SessionState := set_streaming (Some true) ex_state.

(** A session with an uploaded OAuth configuration. *)
Definition ex_with_oauth : SessionState :=
  {| session_id := "session_20240101_000000"; live_logs := Some [];
     streaming := None; stream_start_time := None;
     current_stream_key := None;
     ffmpeg_thread := None; processed_codes := None;
     oauth_config := Some ex_oauth;
     youtube_tokens := None; youtube_service := None; channel_info := None;
     live_broadcast_info := None |}.

(** A session connected to the platform. *)
Definition ex_connected : SessionState :=
  set_youtube_service (Some ex_service) ex_state.

(** The platform of [ex_service], answering [broadcasts] to a list request. *)
Definition ex_service_with (broadcasts : json) : Service :=
  {| liveStreams_insert := liveStreams_insert ex_service;
     liveStreams_list := liveStreams_list ex_service;
     liveBroadcasts_insert := liveBroadcasts_insert ex_service;
     liveBroadcasts_bind := liveBroadcasts_bind ex_service;
     liveBroadcasts_list := fun _ => Ok broadcasts;
     channels_list_mine := channels_list_mine ex_service |}.

Definition ex_args : ffmpeg_args :=
  {| fa_video_path := "demo.mp4"; fa_stream_key := JStr "ABCD-1234-EFGH";
     fa_is_shorts := false; fa_rtmp_url := None;
     fa_session_id := "session_20240101_000000" |}.

(** An encoder that cannot be launched. *)
Definition ex_popen_missing (_ : list string) : popen_outcome :=
  LaunchFailed "[Errno 2] No such file or directory: 'ffmpeg'".

(** A token endpoint that rejects every request. *)
Definition ex_post_reject (_ : list post_request) (_ : post_request)
    : result http_response :=
  Ok {| resp_status_code := 400; resp_text := "invalid_grant";
        resp_json := Ok (JObj [("error", JStr "invalid_grant")]) |}.

(** An OAuth configuration without [client_secret]. *)
Definition ex_oauth_incomplete : json :=
  JObj [("client_id", JStr "1234.apps.googleusercontent.com");
        ("auth_uri", JStr "https://accounts.google.com/o/oauth2/auth");
        ("token_uri", JStr "https://oauth2.googleapis.com/token");
        ("redirect_uris", JArr [JStr "http://localhost:8501"])].

(** The platform of [ex_service], refusing to create broadcasts. *)
Definition ex_service_refusing : Service :=
  {| liveStreams_insert := liveStreams_insert ex_service;
     liveStreams_list := liveStreams_list ex_service;
     liveBroadcasts_insert := fun _ => Raise "HttpError 403";
     liveBroadcasts_bind := liveBroadcasts_bind ex_service;
     liveBroadcasts_list := liveBroadcasts_list ex_service;
     channels_list_mine := channels_list_mine ex_service |}.

Definition ex_channel_ok : json :=
  JObj [("name", JStr "Main"); ("stream_key", JStr "ABCD-1234-EFGH")].

Definition ex_channel_no_key : json := JObj [("name", JStr "Second")].

Definition ex_channel_config (channels : list json) : json :=
  JObj [("channels", JArr channels)].

Definition ex_quote (s : string) : string := s.
Definition ex_stamp (d : Z) : string := pretty d.

Definition ex_channel_row (name used : string) : channel_row :=
  {| cr_channel_name := name; cr_channel_id := "UC-" ++ name;
     cr_auth_data := ex_tokens; cr_created_at := "2024-01-01T00:00:00";
     cr_last_used := used |}.

Definition ex_table : list channel_row :=
  [ex_channel_row "Main" "2024-01-02T00:00:00";
   ex_channel_row "Second" "2024-01-03T00:00:00"].

(** A world whose database fails. *)
Definition ex_world_down : World :=
  {| w_ticks := 0; w_db_ok := false; w_logs := []; w_sessions := ∅;
     w_saved := []; w_files := ∅; w_os := []; w_http := []; w_api := [];
     w_ui := [] |}.

(** An encoder that prints one progress line and exits. *)
Definition ex_popen_quiet (_ : list string) : popen_outcome :=
  Ran ["frame=    1 fps=0.0"] (Exited 0).

(** An encoder that prints the destination it opens, as [ffmpeg] does, and
    exits. *)
Definition ex_popen (cmd : list string) : popen_outcome :=
  Ran ["Output #0, flv, to '" ++ default "" (last cmd) ++ "':"] (Exited 0).

(** * Properties *)

(** [set_solver] without the section variables a goal does not mention. *)
Ltac env_set_solver :=
  try clear quote; try clear strftime_stamp;
  try clear build_service; try clear requests_post; try clear py_str;
  try clear strftime_HMS; try clear isoformat; try clear clock;
  set_solver.

(** ** The live log buffer *)

Lemma slice_from_last_100 {A} (l : list A) :
  slice_from (-100) l = drop (length l - 100) l.
Proof.
  unfold slice_from. change (-100 <? 0) with true. cbv iota.
  f_equal. lia.
Qed.

Lemma last_drop_snoc {A} (n : nat) (l : list A) (x : A) :
  (n <= length l)%nat -> last (drop n (l ++ [x])) = Some x.
Proof.
  intros Hn. rewrite drop_app_le by exact Hn. apply last_snoc.
Qed.

Lemma log_callback_buffer msg s w :
  let logs := (default [] (live_logs s) ++ [live_entry (now w) msg])%list in
  live_logs (log_callback msg s w).1 = Some (drop (length logs - 100) logs).
Proof.
  unfold log_callback. cbn [fst set_live_logs live_logs].
  destruct (Nat.ltb_spec 100
    (length (default [] (live_logs s) ++ [live_entry (now w) msg]))).
  - by rewrite slice_from_last_100.
  - replace (_ - 100)%nat with 0%nat by lia. done.
Qed.

Lemma log_callback_last msg s w :
  exists buf, live_logs (log_callback msg s w).1 = Some buf
    /\ last buf = Some (live_entry (now w) msg).
Proof.
  eexists. split; [apply log_callback_buffer |].
  apply last_drop_snoc. rewrite length_app. simpl. lia.
Qed.

(** C10: after every call of [log_callback] the buffer
    [st.session_state['live_logs']] holds at most 100 entries: the last 100
    of the previous buffer followed by the new entry, in the order they
    were appended (all of them when there are no more than 100). *)
Theorem log_callback_keeps_last_100 (msg : string) (s : SessionState) (w : World) :
  let logs := (default [] (live_logs s) ++ [live_entry (now w) msg])%list in
  exists buf,
    live_logs (log_callback msg s w).1 = Some buf
    /\ (length buf <= 100)%nat
    /\ buf = drop (length logs - 100) logs
    /\ last buf = Some (live_entry (now w) msg).
Proof.
  intros logs. exists (drop (length logs - 100) logs).
  split; [apply log_callback_buffer |].
  split; [rewrite length_drop; lia |].
  split; [reflexivity |].
  apply last_drop_snoc. subst logs. rewrite length_app. simpl. lia.
Qed.

(** ** The encoder supervisor *)

Lemma log_to_database_db_ok sid ty m v k c w :
  w_db_ok (log_to_database sid ty m v k c w) = w_db_ok w.
Proof. unfold log_to_database. by destruct (w_db_ok w) eqn:E. Qed.

Lemma log_to_database_last sid ty m v k c w :
  w_db_ok w = true ->
  exists r, last (w_logs (log_to_database sid ty m v k c w)) = Some r
    /\ lr_message r = m /\ lr_log_type r = ty /\ lr_session_id r = sid.
Proof.
  intros Hok. unfold log_to_database. rewrite Hok. cbn [add_log w_logs].
  eexists. split; [apply last_snoc | done].
Qed.

Lemma log_both_db_ok sid ty m v tw :
  w_db_ok (log_both log_callback sid ty m v tw).2 = w_db_ok tw.2.
Proof.
  destruct tw as [s w]. unfold log_both, log_callback. cbn [fst snd].
  destruct (opt_truthy sid); cbn [snd]; by rewrite ?log_to_database_db_ok.
Qed.

Lemma log_lines_db_ok sid v lines tw :
  w_db_ok (foldl (fun acc line =>
             log_both log_callback sid "FFMPEG" (strip line) v acc) tw lines).2
  = w_db_ok tw.2.
Proof.
  revert tw. induction lines as [|line lines IH]; intros tw; [done |].
  cbn [foldl]. rewrite IH. apply log_both_db_ok.
Qed.

Lemma log_both_emits sid ty m v tw :
  let tw' := log_both log_callback sid ty m v tw in
  (exists t buf, live_logs tw'.1 = Some buf /\ last buf = Some (live_entry t m))
  /\ (opt_truthy sid = true -> w_db_ok tw.2 = true ->
      exists r, last (w_logs tw'.2) = Some r
        /\ lr_message r = m /\ lr_log_type r = ty
        /\ lr_session_id r = default "" sid).
Proof.
  destruct tw as [s w]. cbn zeta. unfold log_both. cbn [fst snd].
  destruct (log_callback_last m s w) as (buf & Hbuf & Hlast).
  destruct (log_callback m s w) as [s1 w1] eqn:E.
  assert (Hw : w1 = tick w) by (unfold log_callback in E; congruence).
  cbn [fst] in Hbuf. split.
  - exists (now w), buf. by destruct (opt_truthy sid).
  - intros Hsid Hok. rewrite Hsid. cbn [snd].
    apply log_to_database_last. by subst w1.
Qed.

(** C6: whatever the encoder does (it cannot be launched, it prints lines
    and exits with any return code, or reading its output raises),
    [run_ffmpeg] ends by emitting the line [final_msg]: it is the last
    entry of the live log buffer and, when a session id is given and the
    database answers, the last row of [streaming_logs], of type INFO. *)
Theorem run_ffmpeg_ends_with_final_line
    (popen : list string -> popen_outcome) (video_path : string)
    (stream_key : json) (is_shorts : bool) (rtmp_url sid : option string)
    (s : SessionState) (w : World) :
  let sw' := run_ffmpeg log_callback popen video_path stream_key is_shorts
               rtmp_url sid (s, w) in
  (exists t buf, live_logs sw'.1 = Some buf
      /\ last buf = Some (live_entry t final_msg))
  /\ (opt_truthy sid = true -> w_db_ok w = true ->
      exists r, last (w_logs sw'.2) = Some r
        /\ lr_message r = final_msg /\ lr_log_type r = "INFO"
        /\ lr_session_id r = default "" sid).
Proof.
  cbn zeta. unfold run_ffmpeg.
  set (cmd := ffmpeg_cmd video_path stream_key is_shorts rtmp_url).
  set (tw1 := match popen cmd with LaunchFailed _ => _ | Ran _ _ => _ end).
  destruct (log_both_emits sid "INFO" final_msg video_path tw1) as [Hlive Hdb].
  split; [exact Hlive |].
  intros Hsid Hok. apply Hdb; [exact Hsid |].
  subst tw1. destruct (popen cmd) as [e | lines [code | e]];
    rewrite ?log_both_db_ok, ?log_lines_db_ok, ?log_both_db_ok; exact Hok.
Qed.

Lemma string_app_assoc (a b c : string) : ((a ++ b) ++ c = a ++ (b ++ c))%string.
Proof.
  induction a as [|ch a IH]; [reflexivity |].
  change (String ch ((a ++ b) ++ c) = String ch (a ++ (b ++ c)))%string.
  by rewrite IH.
Qed.

Lemma ffmpeg_cmd_head video_path stream_key is_shorts rtmp_url :
  slice_to 8 (ffmpeg_cmd video_path stream_key is_shorts rtmp_url)
  = ["ffmpeg"; "-re"; "-stream_loop"; "-1"; "-i"; video_path; "-c:v"; "libx264"].
Proof. by destruct is_shorts. Qed.

(** C5, as the code has it: the messages that [run_ffmpeg] composes
    itself do not depend on the stream key or the RTMP URL. The start
    message shows the first eight command words (the video path among
    them) and a note that the URL is hidden; and two runs that differ only
    in key and URL, whose encoder behaves the same, log the same lines to
    the callback and to the database. The lines the encoder prints and the
    text of an exception are logged as they are. *)
Theorem run_ffmpeg_own_messages_hide_destination
    {T : Type} (callback : string -> T -> World -> T * World)
    (popen : list string -> popen_outcome) (video_path : string)
    (key1 key2 : json) (is_shorts : bool) (url1 url2 sid : option string)
    (tw : T * World) :
  start_msg (ffmpeg_cmd video_path key1 is_shorts url1)
  = start_prefix ++ "ffmpeg -re -stream_loop -1 -i " ++ video_path
      ++ " -c:v libx264" ++ start_suffix
  /\ (popen (ffmpeg_cmd video_path key1 is_shorts url1)
      = popen (ffmpeg_cmd video_path key2 is_shorts url2) ->
      run_ffmpeg callback popen video_path key1 is_shorts url1 sid tw
      = run_ffmpeg callback popen video_path key2 is_shorts url2 sid tw).
Proof.
  split.
  - unfold start_msg. rewrite ffmpeg_cmd_head. cbn [join].
    f_equal. rewrite !string_app_assoc. reflexivity.
  - intros Hsame. unfold run_ffmpeg, start_msg.
    rewrite Hsame, !ffmpeg_cmd_head. reflexivity.
Qed.

(** ** The event log query *)

Lemma ltb_false_leb (x r : string) :
  String.ltb x r = false -> String.leb r x = true.
Proof.
  unfold String.ltb, String.leb. rewrite (String.compare_antisym x r).
  by destruct (String.compare r x).
Qed.

Lemma ltb_true_leb (x r : string) :
  String.ltb x r = true -> String.leb x r = true.
Proof. unfold String.ltb, String.leb. by destruct (String.compare x r). Qed.

Lemma ltb_asym (x r : string) :
  String.ltb x r = true -> String.ltb r x = false.
Proof.
  unfold String.ltb. rewrite (String.compare_antisym x r).
  by destruct (String.compare r x).
Qed.

Lemma insert_desc_sorted r l :
  Sorted row_newer_first l -> Sorted row_newer_first (insert_desc r l).
Proof.
  induction l as [|x l IH]; intros Hs; cbn [insert_desc].
  - repeat constructor.
  - destruct (String.ltb (lr_timestamp x) (lr_timestamp r)) eqn:E.
    + constructor; [exact Hs |]. constructor. by apply ltb_true_leb.
    + inversion Hs as [|? ? Hl Hhd]; subst. constructor; [by apply IH |].
      destruct l as [|y l]; cbn [insert_desc].
      * constructor. by apply ltb_false_leb.
      * destruct (String.ltb (lr_timestamp y) (lr_timestamp r)).
        -- constructor. by apply ltb_false_leb.
        -- constructor. by inversion Hhd.
Qed.

Lemma order_by_timestamp_desc_sorted rows :
  Sorted row_newer_first (order_by_timestamp_desc rows).
Proof.
  induction rows as [|r rows IH]; [constructor |].
  by apply insert_desc_sorted.
Qed.

Lemma Sorted_take {A} (R : A -> A -> Prop) (n : nat) (l : list A) :
  Sorted R l -> Sorted R (take n l).
Proof.
  revert l. induction n as [|n IH]; intros l Hs; [constructor |].
  destruct l as [|x l]; [constructor |].
  inversion Hs as [|? ? Hl Hhd]; subst. cbn [take].
  constructor; [by apply IH |].
  destruct l as [|y l]; [destruct n; constructor |].
  destruct n; [constructor |]. constructor. by inversion Hhd.
Qed.

Lemma sql_limit_sorted {A} (R : A -> A -> Prop) (n : Z) (l : list A) :
  Sorted R l -> Sorted R (sql_limit n l).
Proof. unfold sql_limit. destruct (n <? 0); [done | apply Sorted_take]. Qed.

Lemma view_of_sorted l :
  Sorted row_newer_first l -> Sorted newer_first (view_of <$> l).
Proof.
  induction 1 as [|x l Hl IH Hhd]; [constructor |].
  cbn [fmap list_fmap]. constructor; [exact IH |].
  destruct Hhd; constructor. assumption.
Qed.

Lemma insert_desc_oldest r l :
  Forall (stamped_before r) l -> insert_desc r l = (l ++ [r])%list.
Proof.
  induction 1 as [|x l Hx Hl IH]; [done |].
  cbn [insert_desc]. rewrite (ltb_asym _ _ Hx). by rewrite IH.
Qed.

Lemma order_by_timestamp_desc_reverse rows :
  StronglySorted stamped_before rows ->
  order_by_timestamp_desc rows = reverse rows.
Proof.
  induction 1 as [|r rows Hs IH Hall]; [done |].
  cbn [order_by_timestamp_desc foldr]. fold (order_by_timestamp_desc rows).
  rewrite IH, reverse_cons. apply insert_desc_oldest.
  by apply Forall_reverse.
Qed.

(** C4, as the code has it: a query returns the entries newest first
    (non-increasing timestamps, at most [limit] of them); when the rows of
    the session were stamped with strictly increasing timestamps, the
    answer is the reverse of the order of emission, cut to the [limit]
    newest. *)
Theorem select_logs_newest_first (sid : option string) (limit : Z)
    (rows : list log_row) :
  Sorted newer_first (select_logs sid limit rows)
  /\ (opt_truthy sid = true ->
      StronglySorted stamped_before
        (List.filter (session_is (default "" sid)) rows) ->
      select_logs sid limit rows
      = view_of <$> sql_limit limit
          (reverse (List.filter (session_is (default "" sid)) rows))).
Proof.
  split.
  - unfold select_logs.
    destruct (opt_truthy sid);
      apply view_of_sorted, sql_limit_sorted, order_by_timestamp_desc_sorted.
  - intros Hsid Hinc. unfold select_logs. rewrite Hsid.
    by rewrite order_by_timestamp_desc_reverse.
Qed.

(** ** Start and stop *)

Lemma log_to_database_os sid ty m v k c w :
  w_os (log_to_database sid ty m v k c w) = w_os w.
Proof. unfold log_to_database. by destruct (w_db_ok w). Qed.

Lemma log_to_database_sessions_early sid ty m v k c w :
  w_sessions (log_to_database sid ty m v k c w) = w_sessions w.
Proof. unfold log_to_database. by destruct (w_db_ok w). Qed.

Lemma log_to_database_files sid ty m v k c w :
  w_files (log_to_database sid ty m v k c w) = w_files w.
Proof. unfold log_to_database. by destruct (w_db_ok w). Qed.

Lemma log_to_database_ui sid ty m v k c w x :
  x ∈ w_ui w -> x ∈ w_ui (log_to_database sid ty m v k c w).
Proof.
  intros Hx. unfold log_to_database.
  destruct (w_db_ok w); cbn [show add_log tick w_ui]; env_set_solver.
Qed.

Lemma log_to_database_rows sid ty m v k c w :
  length (w_logs (log_to_database sid ty m v k c w))
  = (length (w_logs w) + (if w_db_ok w then 1 else 0))%nat.
Proof.
  unfold log_to_database. destruct (w_db_ok w); cbn [add_log show w_logs tick].
  - by rewrite length_app.
  - lia.
Qed.

Lemma save_streaming_session_os sid a b c d e f g h w :
  w_os (save_streaming_session sid a b c d e f g h w) = w_os w.
Proof. unfold save_streaming_session. by destruct (w_db_ok w). Qed.

Lemma kill_attempts_snoc_pkill (l : list os_action) :
  length (List.filter is_pkill (l ++ [System "pkill ffmpeg"]))
  = S (length (List.filter is_pkill l)).
Proof. rewrite List.filter_app, length_app. cbn. lia. Qed.

Lemma kill_attempts_snoc_other (l : list os_action) (a : os_action) :
  is_pkill a = false ->
  length (List.filter is_pkill (l ++ [a])) = length (List.filter is_pkill l).
Proof.
  intros Ha. rewrite List.filter_app, length_app. cbn. rewrite Ha. cbn. lia.
Qed.

Lemma stop_button_state s w :
  (stop_button s w).1 = set_stream_start_time None (set_streaming (Some false) s).
Proof. reflexivity. Qed.

Lemma stop_button_files s w :
  w_files (stop_button s w).2 = w_files w ∖ {[ "temp_video.mp4" ]}.
Proof.
  unfold stop_button. cbn [snd]. rewrite log_to_database_files.
  cbn [show w_files perform].
  destruct (decide _) as [Hin | Hout]; cbn [remove_file w_files];
    [done | env_set_solver].
Qed.

Lemma stop_button_os s w :
  w_os (stop_button s w).2 =
  (w_os w ++ [System "pkill ffmpeg"] ++
     if decide ("temp_video.mp4" ∈ w_files w) then [Remove "temp_video.mp4"] else [])%list.
Proof.
  unfold stop_button. cbn [snd]. rewrite log_to_database_os.
  cbn [show w_os perform w_files].
  destruct (decide _); cbn [remove_file w_os perform].
  - by rewrite <- app_assoc.
  - by rewrite app_nil_r.
Qed.

Lemma stop_button_kills s w :
  kill_attempts (stop_button s w).2 = S (kill_attempts w).
Proof.
  unfold kill_attempts. rewrite stop_button_os. destruct (decide _).
  - rewrite (app_assoc _ [_] [_]), kill_attempts_snoc_other by done.
    apply kill_attempts_snoc_pkill.
  - rewrite app_nil_r. apply kill_attempts_snoc_pkill.
Qed.

Lemma stop_button_logs s w :
  w_logs (stop_button s w).2
  = (w_logs w ++
     if w_db_ok w then [stopped_row (session_id s) (isoformat (now w))]
     else [])%list.
Proof.
  unfold stop_button, log_to_database. cbn [snd].
  destruct (decide _); cbn; destruct (w_db_ok w); cbn;
    by rewrite ?app_nil_r.
Qed.

Lemma stop_button_ui s w :
  w_ui (stop_button s w).2
  = (w_ui w ++ UiWarning "Streaming stopped!" ::
     if w_db_ok w then [] else [UiError "Error logging to database"])%list.
Proof.
  unfold stop_button, log_to_database. cbn [snd].
  destruct (decide _); cbn; destruct (w_db_ok w); cbn;
    by rewrite <- ?app_assoc.
Qed.

(** C2, as the code has it: pressing [Stop Streaming] a second time leaves
    the session state and the files as the first press left them and shows
    the same warning as the first press, but it is not a no-op: like every
    press it runs [pkill ffmpeg] once more (its only action on the system
    this time) and, when the database answers, logs one more row
    "Streaming stopped by user" for the session (one more error message
    when it does not). *)
Theorem stop_button_twice (s : SessionState) (w : World) :
  let sw1 := stop_button s w in
  let sw2 := stop_button sw1.1 sw1.2 in
  sw2.1 = sw1.1
  /\ streaming sw2.1 = Some false
  /\ stream_start_time sw2.1 = None
  /\ w_files sw2.2 = w_files sw1.2
  /\ kill_attempts sw2.2 = S (kill_attempts sw1.2)
  /\ length (w_logs sw2.2)
     = (length (w_logs sw1.2) + (if w_db_ok sw1.2 then 1 else 0))%nat
  /\ w_os sw2.2 = (w_os sw1.2 ++ [System "pkill ffmpeg"])%list
  /\ w_logs sw2.2
     = (w_logs sw1.2 ++
        if w_db_ok sw1.2
        then [stopped_row (session_id s) (isoformat (now sw1.2))]
        else [])%list
  /\ w_ui sw2.2
     = (w_ui sw1.2 ++ UiWarning "Streaming stopped!" ::
        if w_db_ok sw1.2 then [] else [UiError "Error logging to database"])%list
  /\ UiWarning "Streaming stopped!" ∈ w_ui sw1.2
  /\ w_sessions sw2.2 = w_sessions sw1.2.
Proof.
  cbn zeta.
  split; [by destruct s |].
  split; [reflexivity |].
  split; [reflexivity |].
  split; [rewrite !stop_button_files; env_set_solver |].
  split; [apply stop_button_kills |].
  split.
  { unfold stop_button at 1. cbn [snd]. rewrite log_to_database_rows.
    by destruct (decide _). }
  split.
  { rewrite (stop_button_os (stop_button s w).1 (stop_button s w).2).
    destruct (decide _) as [Hin | _]; [| done].
    rewrite stop_button_files in Hin. exfalso. revert Hin. env_set_solver. }
  split; [by rewrite stop_button_logs |].
  split; [apply stop_button_ui |].
  split.
  { rewrite stop_button_ui. apply elem_of_app. right. apply elem_of_cons.
    by left. }
  unfold stop_button at 1. cbn [snd]. rewrite log_to_database_sessions_early.
  by destruct (decide _).
Qed.

Lemma launched_snoc_thread (l : list os_action) (a : ffmpeg_args) :
  omap is_thread_start (l ++ [ThreadStart a])%list
  = (omap is_thread_start l ++ [a])%list.
Proof. by rewrite omap_app. Qed.

(** C1, as the code has it: [Start Streaming] has no guard on the
    [streaming] flag. Pressed while a session is active, with a video and a
    stream key at hand and a channel name that can be read from the session
    (no channel information, or one whose [snippet] is a dict), it reports
    success and starts one more encoder thread; starting that thread is
    its only action on the system, so the encoders started before are left
    as they are: nothing is killed and no error is returned. *)
Theorem start_button_while_streaming (inp : start_inputs) (s : SessionState)
    (w : World) (video : string) (channel_name : json) :
  streaming s = Some true ->
  si_video_path inp = Some video ->
  str_truthy video = true ->
  Json.truthy (default (JStr "") (current_stream_key s)) = true ->
  channel_title s = Ok channel_name ->
  exists args s' w',
    start_button inp s w = (StartStarted, s', w')
    /\ launched w' = (launched w ++ [args])%list
    /\ fa_video_path args = video
    /\ fa_stream_key args = default (JStr "") (current_stream_key s)
    /\ kill_attempts w' = kill_attempts w
    /\ streaming s' = Some true
    /\ ffmpeg_thread s' = Some args
    /\ UiSuccess "Streaming started!" ∈ w_ui w'
    /\ w_os w' = (w_os w ++ [ThreadStart args])%list
    /\ w_files w' = w_files w.
Proof.
  intros Hactive Hvideo Hv Hkey Hch.
  unfold start_button. rewrite Hvideo. cbn [opt_truthy]. rewrite Hv, Hkey, Hch.
  cbn [negb default]. eexists _, _, _.
  split; [reflexivity |].
  unfold launched, kill_attempts. rewrite !log_to_database_os.
  cbn [show perform tick w_os]. rewrite !save_streaming_session_os.
  split; [apply launched_snoc_thread |].
  split; [reflexivity |]. split; [reflexivity |].
  split; [by apply kill_attempts_snoc_other |].
  split; [reflexivity |]. split; [reflexivity |].
  split; [apply log_to_database_ui; cbn [show w_ui]; env_set_solver |].
  split; [reflexivity |].
  rewrite log_to_database_files. cbn [show perform tick w_files].
  unfold save_streaming_session. by destruct (w_db_ok w).
Qed.

(** ** The broadcast provisioner *)

Ltac unfold_bind := unfold mbind, result_bind, Py.bind in *.

(** C7: when [create_live_stream] succeeds, it has sent exactly three
    requests (create the stream, create the broadcast with the given
    metadata, bind), the bind request names the broadcast and the stream
    created by the first two, and the returned [stream_id] and
    [broadcast_id] are those two ids. *)
Theorem create_live_stream_binds_created_stream
    (service : Service) (title description : string) (scheduled : Z)
    (tags : list string) (category privacy : string) (kids : bool)
    (w w' : World) (info : json) :
  create_live_stream service title description scheduled tags category
    privacy kids w = (Some info, w') ->
  exists stream_response broadcast_response stream_id broadcast_id bind_response,
    liveStreams_insert service (stream_body title description)
      = Ok stream_response
    /\ Json.getitem stream_response "id" = Ok stream_id
    /\ liveBroadcasts_insert service
         (broadcast_body title description scheduled tags category privacy kids)
       = Ok broadcast_response
    /\ Json.getitem broadcast_response "id" = Ok broadcast_id
    /\ liveBroadcasts_bind service broadcast_id stream_id = Ok bind_response
    /\ w_api w' =
       (w_api w ++
        [StreamsInsert (stream_body title description);
         BroadcastsInsert
           (broadcast_body title description scheduled tags category privacy kids);
         BroadcastsBind broadcast_id stream_id])%list
    /\ Json.getitem info "stream_id" = Ok stream_id
    /\ Json.getitem info "broadcast_id" = Ok broadcast_id.
Proof.
  unfold create_live_stream, create_failed.
  destruct (liveStreams_insert service _) as [sresp | e] eqn:Hs; [| done].
  destruct (liveBroadcasts_insert service _) as [bresp | e] eqn:Hb; [| done].
  unfold_bind.
  destruct (Json.getitem bresp "id") as [bid | e] eqn:Hbid; [| done].
  destruct (Json.getitem sresp "id") as [sid | e] eqn:Hsid; [| done].
  destruct (liveBroadcasts_bind service bid sid) as [r | e] eqn:Hbind; [| done].
  unfold live_info_of. unfold_bind.
  destruct (Json.getitem sresp "cdn") as [cdn | e]; [| done].
  destruct (Json.getitem cdn "ingestionInfo") as [ing | e]; [| done].
  destruct (Json.getitem ing "streamName") as [key | e]; [| done].
  destruct (Json.getitem ing "ingestionAddress") as [url | e]; [| done].
  rewrite Hbid, Hsid. intros [= <- <-].
  exists sresp, bresp, sid, bid, r.
  repeat (split; [done |]).
  split; [| done].
  cbn [called w_api]. by rewrite <- !app_assoc.
Qed.

(** C8: [get_broadcast_stream_key] answers [None] when the list of
    broadcasts is empty and when the broadcast has no [boundStreamId]; an
    answer [Some info] is given only when the broadcast, its bound stream id
    and that stream were all found, and then [info] has its three entries:
    the stream name and ingestion address read from the stream, and the
    bound stream id. *)
Theorem get_broadcast_stream_key_all_or_nothing
    (service : Service) (broadcast_id : json) (w : World) :
  let r := (get_broadcast_stream_key service broadcast_id w).1 in
  (forall broadcast_response items,
      liveBroadcasts_list service broadcast_id = Ok broadcast_response ->
      Json.getitem broadcast_response "items" = Ok items ->
      Json.truthy items = false ->
      r = None)
  /\ (forall broadcast_response items stream_id,
      liveBroadcasts_list service broadcast_id = Ok broadcast_response ->
      Json.getitem broadcast_response "items" = Ok items ->
      bound_stream_id items = Ok stream_id ->
      Json.truthy stream_id = false ->
      r = None)
  /\ (forall info,
      r = Some info ->
      exists broadcast_response items stream_id stream_response stream_items
             stream_key stream_url,
        liveBroadcasts_list service broadcast_id = Ok broadcast_response
        /\ Json.getitem broadcast_response "items" = Ok items
        /\ Json.truthy items = true
        /\ bound_stream_id items = Ok stream_id
        /\ Json.truthy stream_id = true
        /\ liveStreams_list service stream_id = Ok stream_response
        /\ Json.getitem stream_response "items" = Ok stream_items
        /\ Json.truthy stream_items = true
        /\ stream_info_of stream_items stream_id = Ok info
        /\ info = JObj [("stream_key", stream_key);
                        ("stream_url", stream_url);
                        ("stream_id", stream_id)]).
Proof.
  cbn zeta. unfold get_broadcast_stream_key, key_failed. unfold_bind.
  split; [| split].
  - intros br items Hbr Hitems Hempty. rewrite Hbr, Hitems, Hempty. done.
  - intros br items sid Hbr Hitems Hsid Hunbound. rewrite Hbr, Hitems.
    destruct (Json.truthy items); [| done].
    cbn [negb]. rewrite Hsid, Hunbound. done.
  - intros info.
    destruct (liveBroadcasts_list service broadcast_id) as [br | e] eqn:Hbr;
      [| done].
    destruct (Json.getitem br "items") as [items | e] eqn:Hbi; [| done].
    destruct (Json.truthy items) eqn:Hitems; [| done]. cbn [negb].
    destruct (bound_stream_id items) as [sid | e] eqn:Hbound; [| done].
    destruct (Json.truthy sid) eqn:Hsid; [| done]. cbn [negb].
    destruct (liveStreams_list service sid) as [sr | e] eqn:Hsr; [| done].
    destruct (Json.getitem sr "items") as [sitems | e] eqn:Hsi'; [| done].
    destruct (Json.truthy sitems) eqn:Hsitems; [| done].
    destruct (stream_info_of sitems sid) as [si | e] eqn:Hinfo; [| done].
    cbn [fst]. intros [= <-].
    assert (exists key url, si = JObj [("stream_key", key); ("stream_url", url);
                                       ("stream_id", sid)]) as (key & url & Hsi).
    { revert Hinfo. unfold stream_info_of. unfold_bind.
      destruct (Json.getitem0 sitems) as [first | ?]; [| done].
      destruct (Json.getitem first "cdn") as [cdn | ?]; [| done].
      destruct (Json.getitem cdn "ingestionInfo") as [ing | ?]; [| done].
      destruct (Json.getitem ing "streamName") as [key | ?]; [| done].
      destruct (Json.getitem ing "ingestionAddress") as [url | ?]; [| done].
      intros [= <-]. by exists key, url. }
    by exists br, items, sid, sr, sitems, key, url.
Qed.

Lemma report_error_api prefix e s w :
  w_api (report_error prefix e s w) = w_api w.
Proof.
  unfold report_error, log_to_database.
  by destruct (w_db_ok (show _ w)).
Qed.

Lemma log_to_database_api sid ty m v k c w :
  w_api (log_to_database sid ty m v k c w) = w_api w.
Proof. unfold log_to_database. by destruct (w_db_ok w). Qed.

Lemma create_live_stream_api service title description scheduled tags
    category privacy kids w :
  exists calls,
    w_api (create_live_stream service title description scheduled tags
             category privacy kids w).2 = (w_api w ++ calls)%list
    /\ forall body, BroadcastsInsert body ∈ calls ->
         body = broadcast_body title description scheduled tags category
                  privacy kids.
Proof.
  unfold create_live_stream, create_failed.
  destruct (liveStreams_insert service _) as [sresp | e].
  2: { eexists [_]. split; [reflexivity |]. intros body Hin.
       apply list_elem_of_singleton in Hin. done. }
  destruct (liveBroadcasts_insert service _) as [bresp | e].
  2: { eexists [_; _]. split; [cbn [snd show called w_api]; by rewrite <- app_assoc |].
       intros body Hin. env_set_solver. }
  destruct (_ ← Json.getitem bresp "id"; _) as [[bid sid] | e].
  2: { eexists [_; _]. split; [cbn [snd show called w_api]; by rewrite <- app_assoc |].
       intros body Hin. env_set_solver. }
  exists [StreamsInsert (stream_body title description);
          BroadcastsInsert (broadcast_body title description scheduled tags
                              category privacy kids);
          BroadcastsBind bid sid].
  split; [| intros body Hin; env_set_solver].
  destruct (liveBroadcasts_bind service bid sid); [| cbn; by rewrite <- !app_assoc].
  destruct (live_info_of sresp bresp); cbn; by rewrite <- !app_assoc.
Qed.

Lemma broadcast_body_scheduled title description scheduled tags category
    privacy kids :
  scheduled_start_of
    (broadcast_body title description scheduled tags category privacy kids)
  = Ok (JStr (isoformat scheduled)).
Proof. by destruct tags, (str_truthy category) eqn:E; unfold broadcast_body; rewrite ?E. Qed.

Lemma add_seconds_ok d n r : add_seconds d n = Ok r -> r = d + n * 1000000.
Proof. unfold add_seconds. by destruct (_ && _); intros [=]. Qed.

(** C9: every request to create a broadcast that the button
    [Create YouTube Live] sends carries, as scheduled start time, the time
    read from the clock when the button was handled plus exactly 30
    seconds. *)
Theorem create_live_button_schedules_in_30_seconds
    (form : stream_form) (s : SessionState) (w : World) (body : json) :
  BroadcastsInsert body
    ∈ drop (length (w_api w)) (w_api (create_live_button form s w).2) ->
  scheduled_start_of body = Ok (JStr (isoformat (now w + 30 * 1000000))).
Proof.
  unfold create_live_button.
  destruct (youtube_service s) as [service |].
  2: { cbn [snd]. rewrite report_error_api, drop_all. env_set_solver. }
  destruct (add_seconds (now w) 30) as [scheduled | e] eqn:Hadd.
  2: { cbn [snd]. rewrite report_error_api. cbn [tick w_api].
       rewrite drop_all. env_set_solver. }
  apply add_seconds_ok in Hadd. subst scheduled.
  destruct (create_live_stream_api service (f_title form) (f_description form)
              (now w + 30 * 1000000) (parse_tags (f_tags_input form))
              (f_category_id form) (f_privacy_status form)
              (f_made_for_kids form) (tick w)) as (calls & Hcalls & Hbody).
  destruct (create_live_stream _ _ _ _ _ _ _ _ _) as [live_info w1].
  cbn [snd] in Hcalls. cbn [tick w_api] in Hcalls.
  assert (Hfinal : forall w2, w_api w2 = w_api w1 ->
            BroadcastsInsert body ∈ drop (length (w_api w)) (w_api w2) ->
            scheduled_start_of body
            = Ok (JStr (isoformat (now w + 30 * 1000000)))).
  { intros w2 -> . rewrite Hcalls, drop_app_length. intros Hin.
    rewrite (Hbody body Hin). apply broadcast_body_scheduled. }
  destruct live_info as [info |]; [| by apply Hfinal].
  destruct (Json.getitem info "stream_key");
    [| apply Hfinal; cbn [snd]; by rewrite report_error_api].
  destruct (Json.getitem info "watch_url"); apply Hfinal; cbn [snd];
    by rewrite ?report_error_api, ?log_to_database_api.
Qed.

(** ** The code exchange *)

Lemma exchange_code_for_tokens_http client_config auth_code w req :
  token_request client_config auth_code = Ok req ->
  w_http (exchange_code_for_tokens client_config auth_code w).2
  = (w_http w ++ [req])%list.
Proof.
  intros Hreq. unfold exchange_code_for_tokens. rewrite Hreq.
  destruct (requests_post (w_http w) req) as [response | e]; [| done].
  destruct (resp_status_code response =? 200); [| done].
  by destruct (resp_json response).
Qed.

Lemma token_request_code client_config auth_code req :
  token_request client_config auth_code = Ok req -> pr_code req = auth_code.
Proof.
  unfold token_request. unfold_bind.
  repeat (match goal with
          | |- context [match ?r with Ok _ => _ | Raise _ => _ end] =>
              destruct r; [| done]
          end).
  by intros [= <-].
Qed.

Lemma create_youtube_service_http credentials_dict w :
  w_http (create_youtube_service credentials_dict w).2 = w_http w.
Proof. unfold create_youtube_service. by destruct (build_service _). Qed.

Lemma get_channel_info_http service w :
  w_http (get_channel_info service w).2 = w_http w.
Proof.
  unfold get_channel_info.
  by destruct (_ ← channels_list_mine service; _).
Qed.

Lemma save_channel_auth_http name id auth w :
  w_http (save_channel_auth name id auth w).2 = w_http w.
Proof. unfold save_channel_auth. by destruct (w_db_ok w). Qed.

(** The button never reads or writes [processed_codes]: whatever the
    session holds, a non-empty code is posted to the token endpoint. *)
Lemma exchange_button_always_posts oauth auth_code s w req :
  str_truthy auth_code = true ->
  token_request oauth auth_code = Ok req ->
  w_http (exchange_button oauth auth_code s w).2 = (w_http w ++ [req])%list
  /\ processed_codes (exchange_button oauth auth_code s w).1.2
     = processed_codes s.
Proof.
  intros Hcode Hreq. unfold exchange_button. rewrite Hcode.
  pose proof (exchange_code_for_tokens_http oauth auth_code w req Hreq) as Hw.
  destruct (exchange_code_for_tokens oauth auth_code w) as [tokens w1].
  cbn [snd] in Hw.
  destruct tokens as [tokens |]; [| done].
  destruct (Json.truthy tokens); [| done].
  destruct (creds_dict_of tokens oauth) as [creds | e]; [| done].
  pose proof (create_youtube_service_http creds
                (show (UiSuccess "Tokens obtained successfully!") w1)) as Hw2.
  destruct (create_youtube_service creds _) as [service w2].
  cbn [snd show w_http] in Hw2.
  destruct service as [service |]; [| by rewrite <- Hw, <- Hw2].
  pose proof (get_channel_info_http service w2) as Hw3.
  destruct (get_channel_info service w2) as [channels w3]. cbn [snd] in Hw3.
  destruct (Json.truthy channels); [| by rewrite <- Hw, <- Hw2, <- Hw3].
  destruct (_ ← Json.getitem0 channels; _) as [[channel title] | e];
    [| by rewrite <- Hw, <- Hw2, <- Hw3].
  destruct (Json.getitem channel "id") as [id | e];
    [| by rewrite <- Hw, <- Hw2, <- Hw3].
  pose proof (save_channel_auth_http title id creds
                (show (UiSuccess ("Connected to: " ++ py_str title)) w3)) as Hw4.
  destruct (save_channel_auth title id creds _) as [saved w4].
  cbn [snd show w_http] in Hw4. cbn [fst snd].
  by rewrite <- Hw, <- Hw2, <- Hw3, <- Hw4.
Qed.

(** The URL path does consult [processed_codes]: a code in the set is
    ignored, nothing is sent. *)
Lemma auto_process_auth_code_ignores_processed auth_code s w :
  auth_code ∈ default ∅ (processed_codes s) ->
  auto_process_auth_code (Some auth_code) s w
  = (AuthIgnored, set_processed_codes (Some (default ∅ (processed_codes s))) s, w).
Proof.
  intros Hin. unfold auto_process_auth_code. by rewrite decide_True.
Qed.

(** * Further properties of the code *)

(** ** The log query *)

Lemma insert_desc_perm r l : insert_desc r l ≡ₚ r :: l.
Proof.
  induction l as [|x l IH]; cbn [insert_desc]; [done |].
  destruct (String.ltb _ _); [done |].
  rewrite IH. apply Permutation_swap.
Qed.

Lemma order_by_timestamp_desc_perm rows : order_by_timestamp_desc rows ≡ₚ rows.
Proof.
  induction rows as [|r rows IH]; [done |].
  cbn [order_by_timestamp_desc foldr]. fold (order_by_timestamp_desc rows).
  by rewrite insert_desc_perm, IH.
Qed.

Lemma sql_limit_subseteq {A} (n : Z) (l : list A) : sql_limit n l ⊆ l.
Proof.
  unfold sql_limit. destruct (n <? 0); [done |].
  intros x Hx. by apply elem_of_take in Hx as (i & Hx & _); eapply list_elem_of_lookup_2.
Qed.

(** X1: a query for a session id returns only entries of rows that
    [streaming_logs] holds for that session. *)
Theorem select_logs_only_of_session (sid : string) (limit : Z)
    (rows : list log_row) (v : log_view) :
  str_truthy sid = true ->
  v ∈ select_logs (Some sid) limit rows ->
  exists r, r ∈ rows /\ lr_session_id r = sid /\ v = view_of r.
Proof.
  intros Hsid Hv. unfold select_logs in Hv. cbn [opt_truthy default] in Hv.
  rewrite Hsid in Hv. apply list_elem_of_fmap in Hv as (r & -> & Hr).
  apply sql_limit_subseteq in Hr. rewrite order_by_timestamp_desc_perm in Hr.
  apply list_elem_of_In, List.filter_In in Hr as [Hin Hs].
  exists r. split; [by apply list_elem_of_In |]. split; [| done].
  by apply String.eqb_eq.
Qed.

(** The rows a query ranges over. *)
Lemma select_logs_length_aux (limit : Z) (rows : list log_row) :
  length (view_of <$> sql_limit limit (order_by_timestamp_desc rows))
  = if limit <? 0 then length rows
    else Nat.min (Z.to_nat limit) (length rows).
Proof.
  rewrite length_fmap. unfold sql_limit. destruct (limit <? 0).
  - by rewrite order_by_timestamp_desc_perm.
  - by rewrite length_take, order_by_timestamp_desc_perm.
Qed.

(** X2: a query returns as many entries as [limit] allows: all matching
    rows when there are no more than [limit] (or when [limit] is negative),
    [limit] of them otherwise. *)
Theorem select_logs_length (sid : option string) (limit : Z)
    (rows : list log_row) :
  let matching :=
    if opt_truthy sid then List.filter (session_is (default "" sid)) rows
    else rows in
  length (select_logs sid limit rows)
  = if limit <? 0 then length matching
    else Nat.min (Z.to_nat limit) (length matching).
Proof.
  cbn zeta. unfold select_logs.
  destruct (opt_truthy sid); apply select_logs_length_aux.
Qed.

(** X3: a missing or empty session id does not restrict the query: with
    no bound it returns every row of the table, whatever its session. *)
Theorem select_logs_without_session_returns_all (sid : option string)
    (limit : Z) (rows : list log_row) :
  opt_truthy sid = false ->
  limit < 0 ->
  select_logs sid limit rows ≡ₚ view_of <$> rows.
Proof.
  intros Hsid Hlimit. unfold select_logs, sql_limit. rewrite Hsid.
  replace (limit <? 0) with true by (symmetry; by apply Z.ltb_lt).
  by rewrite order_by_timestamp_desc_perm.
Qed.

(** ** What the supervisor writes to the log *)

(** What one [log_both] appends when a session id is given and the
    database answers. *)
Lemma log_both_appends sid ty m v tw :
  str_truthy sid = true ->
  w_db_ok tw.2 = true ->
  exists r,
    w_logs (log_both log_callback (Some sid) ty m v tw).2
      = (w_logs tw.2 ++ [r])%list
    /\ lr_message r = m /\ lr_log_type r = ty
    /\ lr_session_id r = sid /\ lr_video_file r = Some v.
Proof.
  destruct tw as [s w]. cbn [fst snd]. intros Hsid Hok.
  unfold log_both, log_callback. cbn [fst snd opt_truthy default].
  rewrite Hsid. cbn [snd]. unfold log_to_database.
  cbn [tick w_db_ok]. rewrite Hok. cbn [add_log w_logs tick].
  by eexists.
Qed.

Lemma log_lines_append sid v lines tw :
  str_truthy sid = true ->
  w_db_ok tw.2 = true ->
  exists rows,
    w_logs (foldl (fun acc line =>
              log_both log_callback (Some sid) "FFMPEG" (strip line) v acc)
              tw lines).2 = (w_logs tw.2 ++ rows)%list
    /\ lr_message <$> rows = strip <$> lines
    /\ Forall (fun r => lr_log_type r = "FFMPEG" /\ lr_session_id r = sid
                        /\ lr_video_file r = Some v) rows.
Proof.
  intros Hsid. revert tw.
  induction lines as [|line lines IH]; intros tw Hok.
  - exists []. by rewrite app_nil_r.
  - cbn [foldl].
    destruct (log_both_appends sid "FFMPEG" (strip line) v tw Hsid Hok)
      as (r & Hr & Hm & Hty & Hs & Hv).
    destruct (IH (log_both log_callback (Some sid) "FFMPEG" (strip line) v tw))
      as (rows & Hrows & Hmsgs & Hall).
    { by rewrite log_both_db_ok. }
    exists (r :: rows). rewrite Hrows, Hr, <- app_assoc.
    split; [done |]. split; [cbn; by rewrite Hm, Hmsgs |].
    by constructor.
Qed.

(** X4: with a session id and a working database, a run of the encoder
    that prints [lines] and exits, with any return code, appends to
    [streaming_logs], after the rows already there and in this order: the
    start message, one FFMPEG row per line in the order of arrival (the
    line stripped), the message of successful completion and the final
    message; every row carries the session id and the video path. *)
Theorem run_ffmpeg_appends_rows_in_arrival_order
    (popen : list string -> popen_outcome) (video_path : string)
    (stream_key : json) (is_shorts : bool) (rtmp_url : option string)
    (sid : string) (s : SessionState) (w : World)
    (lines : list string) (returncode : Z) :
  str_truthy sid = true ->
  w_db_ok w = true ->
  popen (ffmpeg_cmd video_path stream_key is_shorts rtmp_url)
    = Ran lines (Exited returncode) ->
  exists first rows completed final,
    w_logs (run_ffmpeg log_callback popen video_path stream_key is_shorts
              rtmp_url (Some sid) (s, w)).2
      = (w_logs w ++ [first] ++ rows ++ [completed; final])%list
    /\ lr_message first
       = start_msg (ffmpeg_cmd video_path stream_key is_shorts rtmp_url)
    /\ lr_message <$> rows = strip <$> lines
    /\ lr_message completed = end_msg
    /\ lr_message final = final_msg
    /\ lr_log_type <$> [first; completed; final] = ["INFO"; "INFO"; "INFO"]
    /\ Forall (fun r => lr_session_id r = sid
                        /\ lr_video_file r = Some video_path)
         ([first] ++ rows ++ [completed; final])
    /\ Forall (fun r => lr_log_type r = "FFMPEG") rows
    /\ length rows = length lines.
Proof.
  intros Hsid Hok Hrun. unfold run_ffmpeg. rewrite Hrun.
  set (cmd := ffmpeg_cmd video_path stream_key is_shorts rtmp_url).
  destruct (log_both_appends sid "INFO" (start_msg cmd) video_path (s, w)
              Hsid Hok) as (r1 & H1 & Hm1 & Ht1 & Hs1 & Hv1).
  set (tw1 := log_both log_callback (Some sid) "INFO" (start_msg cmd)
                video_path (s, w)) in *.
  assert (Hok1 : w_db_ok tw1.2 = true) by (subst tw1; by rewrite log_both_db_ok).
  destruct (log_lines_append sid video_path lines tw1 Hsid Hok1)
    as (rows & Hrows & Hmsgs & Hall).
  set (tw2 := foldl _ tw1 lines) in *.
  assert (Hok2 : w_db_ok tw2.2 = true)
    by (subst tw2; by rewrite log_lines_db_ok).
  destruct (log_both_appends sid "INFO" end_msg video_path tw2 Hsid Hok2)
    as (r3 & H3 & Hm3 & Ht3 & Hs3 & Hv3).
  set (tw3 := log_both log_callback (Some sid) "INFO" end_msg video_path tw2) in *.
  assert (Hok3 : w_db_ok tw3.2 = true) by (subst tw3; by rewrite log_both_db_ok).
  destruct (log_both_appends sid "INFO" final_msg video_path tw3 Hsid Hok3)
    as (r4 & H4 & Hm4 & Ht4 & Hs4 & Hv4).
  exists r1, rows, r3, r4.
  split.
  { rewrite H4, H3, Hrows, H1. cbn [fst snd]. by rewrite <- !app_assoc. }
  repeat (split; [done |]).
  split; [cbn; by rewrite Ht1, Ht3, Ht4 |].
  split; [| split].
  - apply Forall_app. split; [by repeat constructor |].
    apply Forall_app. split; [| by repeat constructor].
    eapply Forall_impl; [exact Hall |]. intros r (_ & ? & ?). done.
  - eapply Forall_impl; [exact Hall |]. by intros r (? & _).
  - by rewrite <- (length_fmap lr_message rows), Hmsgs, length_fmap.
Qed.

(** X5: when the encoder cannot be launched, the log of the session
    gets three rows: the start message, an ERROR row with the text of the
    exception, and the final message; no FFMPEG row and no message of
    successful completion. *)
Theorem run_ffmpeg_launch_failure_rows
    (popen : list string -> popen_outcome) (video_path : string)
    (stream_key : json) (is_shorts : bool) (rtmp_url : option string)
    (sid : string) (s : SessionState) (w : World) (e : string) :
  str_truthy sid = true ->
  w_db_ok w = true ->
  popen (ffmpeg_cmd video_path stream_key is_shorts rtmp_url) = LaunchFailed e ->
  exists first failed final,
    w_logs (run_ffmpeg log_callback popen video_path stream_key is_shorts
              rtmp_url (Some sid) (s, w)).2
      = (w_logs w ++ [first; failed; final])%list
    /\ lr_message <$> [first; failed; final]
       = [start_msg (ffmpeg_cmd video_path stream_key is_shorts rtmp_url);
          error_msg e; final_msg]
    /\ lr_log_type <$> [first; failed; final] = ["INFO"; "ERROR"; "INFO"].
Proof.
  intros Hsid Hok Hrun. unfold run_ffmpeg. rewrite Hrun.
  set (cmd := ffmpeg_cmd video_path stream_key is_shorts rtmp_url).
  destruct (log_both_appends sid "INFO" (start_msg cmd) video_path (s, w)
              Hsid Hok) as (r1 & H1 & Hm1 & Ht1 & _).
  set (tw1 := log_both log_callback (Some sid) "INFO" (start_msg cmd)
                video_path (s, w)) in *.
  assert (Hok1 : w_db_ok tw1.2 = true) by (subst tw1; by rewrite log_both_db_ok).
  destruct (log_both_appends sid "ERROR" (error_msg e) video_path tw1 Hsid Hok1)
    as (r2 & H2 & Hm2 & Ht2 & _).
  set (tw2 := log_both log_callback (Some sid) "ERROR" (error_msg e)
                video_path tw1) in *.
  assert (Hok2 : w_db_ok tw2.2 = true) by (subst tw2; by rewrite log_both_db_ok).
  destruct (log_both_appends sid "INFO" final_msg video_path tw2 Hsid Hok2)
    as (r3 & H3 & Hm3 & Ht3 & _).
  exists r1, r2, r3.
  split; [rewrite H3, H2, H1; cbn [fst snd]; by rewrite <- !app_assoc |].
  split; cbn; congruence.
Qed.

(** X6: the destination is the last word of the command. A non-empty
    custom RTMP URL is used as it is, and then the command does not depend
    on the stream key; without one ([None] or the empty string) the
    destination is the default ingest address followed by the key. *)
Theorem ffmpeg_cmd_destination (video_path : string) (stream_key : json)
    (is_shorts : bool) (rtmp_url : option string) :
  last (ffmpeg_cmd video_path stream_key is_shorts rtmp_url)
    = Some (output_url stream_key rtmp_url)
  /\ (opt_truthy rtmp_url = true ->
      output_url stream_key rtmp_url = default "" rtmp_url
      /\ forall other_key,
           ffmpeg_cmd video_path other_key is_shorts rtmp_url
           = ffmpeg_cmd video_path stream_key is_shorts rtmp_url)
  /\ (opt_truthy rtmp_url = false ->
      output_url stream_key rtmp_url
      = "rtmp://a.rtmp.youtube.com/live2/" ++ py_str stream_key).
Proof.
  split; [| split].
  - unfold ffmpeg_cmd. destruct is_shorts; cbn [str_truthy]; apply last_snoc.
  - intros Hurl. destruct rtmp_url as [u |]; [| done].
    cbn [opt_truthy] in Hurl.
    assert (Hout : forall k, output_url k (Some u) = u).
    { intros k. unfold output_url, or_else. by rewrite Hurl. }
    split; [apply Hout |]. intros k. unfold ffmpeg_cmd. by rewrite !Hout.
  - intros Hurl. unfold output_url, or_else.
    destruct rtmp_url as [u |]; [| done].
    cbn [opt_truthy] in Hurl. by rewrite Hurl.
Qed.

(** ** Starting a session *)

(** X7: without a video, or without a stream key in the session,
    [Start Streaming] starts nothing: it shows an error, and the session
    state, the encoder threads, the stored sessions and the log stay as
    they were. *)
Theorem start_button_refuses_without_video_or_key (inp : start_inputs)
    (s : SessionState) (w : World) :
  opt_truthy (si_video_path inp) = false
  \/ Json.truthy (default (JStr "") (current_stream_key s)) = false ->
  let r := start_button inp s w in
  (r.1.1 = StartNoVideo \/ r.1.1 = StartNoKey)
  /\ r.1.2 = s
  /\ w_os r.2 = w_os w
  /\ w_sessions r.2 = w_sessions w
  /\ w_logs r.2 = w_logs w
  /\ exists m, w_ui r.2 = (w_ui w ++ [UiError m])%list.
Proof.
  intros Hmissing. cbn zeta. unfold start_button.
  destruct (opt_truthy (si_video_path inp)); cbn [negb].
  - destruct Hmissing as [? | Hkey]; [done |]. rewrite Hkey. cbn [negb fst snd].
    repeat split; eauto.
  - cbn [fst snd]. repeat split; eauto.
Qed.

Lemma log_to_database_sessions sid ty m v k c w :
  w_sessions (log_to_database sid ty m v k c w) = w_sessions w.
Proof. unfold log_to_database. by destruct (w_db_ok w). Qed.

(** X8: with a working database, a start that goes through stores the
    session under its session id, with the video, the tags joined by a
    comma and a space and the name of the channel, replacing a row stored
    before under that id; the rows of other sessions stay, and the live
    log buffer is emptied. *)
Theorem start_button_records_session (inp : start_inputs) (s : SessionState)
    (w : World) (video : string) (channel_name : json) :
  w_db_ok w = true ->
  si_video_path inp = Some video ->
  str_truthy video = true ->
  Json.truthy (default (JStr "") (current_stream_key s)) = true ->
  channel_title s = Ok channel_name ->
  let r := start_button inp s w in
  (exists row,
      w_sessions r.2 !! session_id s = Some row
      /\ sr_video_file row = video
      /\ sr_stream_title row = si_stream_title inp
      /\ sr_tags row = join ", " (si_tags inp)
      /\ sr_channel_name row = channel_name
      /\ sr_start_time row = isoformat (now w))
  /\ (forall other, other <> session_id s ->
        w_sessions r.2 !! other = w_sessions w !! other)
  /\ live_logs r.1.2 = Some []
  /\ session_id r.1.2 = session_id s.
Proof.
  intros Hok Hvideo Hv Hkey Hch. cbn zeta.
  unfold start_button. rewrite Hvideo. cbn [opt_truthy]. rewrite Hv, Hkey, Hch.
  cbn [negb default fst snd]. rewrite !log_to_database_sessions.
  cbn [show perform tick w_sessions]. unfold save_streaming_session.
  rewrite Hok. cbn [put_session w_sessions tick].
  split; [| split; [| done]].
  - eexists. split; [apply lookup_insert_eq |]. done.
  - intros other Hother. by rewrite lookup_insert_ne.
Qed.

(** ** The authorization code *)

Lemma set_processed_codes_same (codes : gset string) (s : SessionState) :
  processed_codes s = Some codes -> set_processed_codes (Some codes) s = s.
Proof. destruct s. cbn. by intros ->. Qed.

Lemma auto_process_auth_code_marks auth_code s w :
  let r := auto_process_auth_code (Some auth_code) s w in
  tokens_obtained r.1.1 = true ->
  processed_codes r.1.2
  = Some ({[auth_code]} ∪ default ∅ (processed_codes s)).
Proof.
  cbn zeta. unfold auto_process_auth_code.
  destruct (decide _); [done |].
  destruct (oauth_config _) as [oauth |]; [| done].
  destruct (exchange_code_for_tokens _ _ _) as [[tokens |] w1]; [| done].
  destruct (Json.truthy tokens); [| done].
  destruct (creds_dict_of _ _) as [creds | e]; [| done].
  destruct (create_youtube_service _ _) as [[service |] w2]; [| done].
  destruct (get_channel_info _ _) as [channels w3].
  destruct (Json.truthy channels); [| done].
  destruct (Json.getitem0 channels) as [channel | e]; [| done].
  destruct (_ ← Json.getitem channel "snippet"; _) as [[title id] | e]; [| done].
  by destruct (save_channel_auth _ _ _ _).
Qed.

(** X9: on the URL path a code is exchanged at most once: after a run
    that obtained tokens for it, whatever happened next in that run, the
    same code in the URL is ignored: nothing is sent and the session and
    the world stay as they are. *)
Theorem auto_process_auth_code_at_most_once (auth_code : string)
    (s : SessionState) (w : World) :
  let r := auto_process_auth_code (Some auth_code) s w in
  tokens_obtained r.1.1 = true ->
  auto_process_auth_code (Some auth_code) r.1.2 r.2 = (AuthIgnored, r.1.2, r.2).
Proof.
  cbn zeta. intros Hobtained.
  pose proof (auto_process_auth_code_marks auth_code s w Hobtained) as Hmarked.
  set (r := auto_process_auth_code (Some auth_code) s w) in *.
  unfold auto_process_auth_code at 1. rewrite Hmarked. cbn [default].
  rewrite decide_True by (clear; set_solver).
  do 2 f_equal. apply set_processed_codes_same. exact Hmarked.
Qed.

(** X10: a failed exchange is not recorded: when the URL path gets no
    tokens for a code that was not processed before, the code is still
    not in [processed_codes] and the tokens of the session are untouched,
    so the next run of the script tries the same code again. *)
Theorem auto_process_auth_code_failure_not_recorded (auth_code : string)
    (s : SessionState) (w : World) :
  let r := auto_process_auth_code (Some auth_code) s w in
  (auth_code ∉ default ∅ (processed_codes s)) ->
  r.1.1 = AuthExchangeFailed ->
  (auth_code ∉ default ∅ (processed_codes r.1.2))
  /\ youtube_tokens r.1.2 = youtube_tokens s
  /\ youtube_service r.1.2 = youtube_service s.
Proof.
  cbn zeta. intros Hfresh. unfold auto_process_auth_code.
  rewrite decide_False by exact Hfresh.
  destruct (oauth_config _) as [oauth |]; [| done].
  destruct (exchange_code_for_tokens _ _ _) as [[tokens |] w1]; [| done].
  destruct (Json.truthy tokens); [| done].
  destruct (creds_dict_of _ _) as [creds | e]; [| done].
  destruct (create_youtube_service _ _) as [[service |] w2]; [| done].
  destruct (get_channel_info _ _) as [channels w3].
  destruct (Json.truthy channels); [| done].
  destruct (Json.getitem0 channels) as [channel | e]; [| done].
  destruct (_ ← Json.getitem channel "snippet"; _) as [[title id] | e]; [| done].
  by destruct (save_channel_auth _ _ _ _).
Qed.

(** X11: [exchange_code_for_tokens] returns tokens exactly when the
    request could be built from the configuration, the token endpoint
    answered with status 200, and the body of the answer was JSON; the
    tokens are that body. *)
Theorem exchange_code_for_tokens_some_iff (client_config : json)
    (auth_code : string) (w : World) (tokens : json) :
  (exchange_code_for_tokens client_config auth_code w).1 = Some tokens
  <-> exists req response,
        token_request client_config auth_code = Ok req
        /\ requests_post (w_http w) req = Ok response
        /\ resp_status_code response = 200
        /\ resp_json response = Ok tokens.
Proof.
  unfold exchange_code_for_tokens. split.
  - destruct (token_request _ _) as [req | e]; [| done].
    destruct (requests_post _ _) as [response | e] eqn:Hpost; [| done].
    destruct (resp_status_code response =? 200) eqn:Hstatus; [| done].
    destruct (resp_json response) as [body | e] eqn:Hbody; [| done].
    cbn [fst]. intros [= <-]. exists req, response.
    by apply Z.eqb_eq in Hstatus.
  - intros (req & response & -> & -> & Hstatus & Hbody).
    by rewrite Hstatus, Hbody.
Qed.

(** X12: when the configuration lacks one of the keys [client_id],
    [client_secret], [redirect_uris] or [token_uri], nothing is sent to the
    token endpoint: the exchange returns no tokens and shows an error. *)
Theorem exchange_code_for_tokens_incomplete_config (client_config : json)
    (auth_code : string) (w : World) (key : string) :
  key ∈ ["client_id"; "client_secret"; "redirect_uris"; "token_uri"] ->
  Json.getitem client_config key = Raise "KeyError" ->
  let r := exchange_code_for_tokens client_config auth_code w in
  r.1 = None
  /\ w_http r.2 = w_http w
  /\ exists m, w_ui r.2 = (w_ui w ++ [UiError m])%list.
Proof.
  intros Hkey Hmissing. cbn zeta. unfold exchange_code_for_tokens.
  assert (exists e, token_request client_config auth_code = Raise e) as [e ->].
  { unfold token_request. unfold_bind.
    destruct (Json.getitem client_config "client_id") eqn:E1; [| by eexists].
    destruct (Json.getitem client_config "client_secret") eqn:E2; [| by eexists].
    destruct (Json.getitem client_config "redirect_uris") as [uris |] eqn:E3;
      [| by eexists].
    destruct (Json.getitem0 uris); [| by eexists].
    destruct (Json.getitem client_config "token_uri") eqn:E4; [| by eexists].
    exfalso.
    repeat (apply elem_of_cons in Hkey as [-> | Hkey]); try congruence.
    by apply elem_of_nil in Hkey. }
  cbn [fst snd show w_http w_ui]. eauto.
Qed.

(** ** Provisioning *)

(** X13: no rollback. When the stream was created and the creation of
    the broadcast, or the binding, fails, [create_live_stream] returns
    [None] with an error shown, and the requests it sent are the creation
    of the stream, the creation of the broadcast and, if it got that far,
    the bind: the stream created first is left on the platform. *)
Theorem create_live_stream_leaves_stream_on_failure
    (service : Service) (title description : string) (scheduled : Z)
    (tags : list string) (category privacy : string) (kids : bool)
    (w : World) (stream_response : json) :
  let sbody := stream_body title description in
  let bbody := broadcast_body title description scheduled tags category
                 privacy kids in
  let r := create_live_stream service title description scheduled tags
             category privacy kids w in
  liveStreams_insert service sbody = Ok stream_response ->
  (forall e,
      liveBroadcasts_insert service bbody = Raise e ->
      r.1 = None
      /\ w_api r.2 = (w_api w ++ [StreamsInsert sbody; BroadcastsInsert bbody])%list
      /\ w_ui r.2 = (w_ui w ++ [UiError ("Error creating live stream: " ++ e)])%list)
  /\ (forall broadcast_response id stream_id e,
      liveBroadcasts_insert service bbody = Ok broadcast_response ->
      Json.getitem broadcast_response "id" = Ok id ->
      Json.getitem stream_response "id" = Ok stream_id ->
      liveBroadcasts_bind service id stream_id = Raise e ->
      r.1 = None
      /\ w_api r.2 = (w_api w ++ [StreamsInsert sbody; BroadcastsInsert bbody;
                                 BroadcastsBind id stream_id])%list
      /\ w_ui r.2 = (w_ui w ++ [UiError ("Error creating live stream: " ++ e)])%list).
Proof.
  cbn zeta. intros Hstream. unfold create_live_stream, create_failed.
  rewrite Hstream. split.
  - intros e ->. cbn [fst snd show called w_api w_ui].
    by rewrite <- !app_assoc.
  - intros bresp id sid e -> Hid Hsid Hbind. unfold_bind.
    rewrite Hid, Hsid, Hbind. cbn [fst snd show called w_api w_ui].
    by rewrite <- !app_assoc.
Qed.

(** Every broadcast is created with automatic start and stop
    switched on and with the privacy status and the made-for-kids flag
    given; tags are sent exactly when there is at least one, the category
    exactly when it is not empty. *)
Theorem broadcast_body_settings (title description : string) (scheduled : Z)
    (tags : list string) (category privacy : string) (kids : bool) :
  let body := broadcast_body title description scheduled tags category
                privacy kids in
  body_field body "contentDetails" "enableAutoStart" = Ok (JBool true)
  /\ body_field body "contentDetails" "enableAutoStop" = Ok (JBool true)
  /\ body_field body "status" "privacyStatus" = Ok (JStr privacy)
  /\ body_field body "status" "selfDeclaredMadeForKids" = Ok (JBool kids)
  /\ body_field body "snippet" "title" = Ok (JStr title)
  /\ body_field body "snippet" "tags"
     = match tags with
       | [] => Raise "KeyError"
       | _ => Ok (JArr (JStr <$> tags))
       end
  /\ body_field body "snippet" "categoryId"
     = if str_truthy category then Ok (JStr category) else Raise "KeyError".
Proof.
  cbn zeta. unfold broadcast_body.
  destruct tags, (str_truthy category); repeat split; reflexivity.
Qed.

(** X15: [get_stream_key_only] sends one request, the creation of a
    stream labelled with the time of the call, whatever the platform
    answers: it never creates or binds a broadcast. When it returns a
    result, the key, the address and the id are those of the stream the
    platform answered with. *)
Theorem get_stream_key_only_creates_only_a_stream (service : Service)
    (w : World) :
  let r := get_stream_key_only service w in
  let body := stream_key_body (strftime_stamp (now w)) in
  w_api r.2 = (w_api w ++ [StreamsInsert body])%list
  /\ body_field body "snippet" "title"
     = Ok (JStr ("Stream Key Generator - " ++ strftime_stamp (now w)))
  /\ forall info,
       r.1 = Some info ->
       exists stream_response cdn ingestion stream_key stream_url stream_id,
         liveStreams_insert service body = Ok stream_response
         /\ Json.getitem stream_response "id" = Ok stream_id
         /\ Json.getitem stream_response "cdn" = Ok cdn
         /\ Json.getitem cdn "ingestionInfo" = Ok ingestion
         /\ Json.getitem ingestion "streamName" = Ok stream_key
         /\ Json.getitem ingestion "ingestionAddress" = Ok stream_url
         /\ info = JObj [("stream_key", stream_key);
                         ("stream_url", stream_url);
                         ("stream_id", stream_id)].
Proof.
  cbn zeta. unfold get_stream_key_only. unfold_bind.
  split; [| split; [reflexivity |]].
  - by destruct (match liveStreams_insert service _ with
                 | Ok _ => _ | Raise _ => _ end).
  - intros info.
    destruct (liveStreams_insert service _) as [sr | e] eqn:Hsr; [| done].
    destruct (Json.getitem sr "cdn") as [cdn | e] eqn:Hcdn; [| done].
    destruct (Json.getitem cdn "ingestionInfo") as [ing | e] eqn:Hing; [| done].
    destruct (Json.getitem ing "streamName") as [key | e] eqn:Hkey; [| done].
    destruct (Json.getitem ing "ingestionAddress") as [url | e] eqn:Hurl; [| done].
    destruct (Json.getitem sr "id") as [id | e] eqn:Hid; [| done].
    cbn [fst]. intros [= <-]. by exists sr, cdn, ing, key, url, id.
Qed.

(** ** Configuration files *)

Lemma validate_channels_valid_iff i channels m :
  validate_channels i channels = Ok (true, m)
  <-> m = "Valid configuration" /\ Forall channel_entry_ok channels.
Proof.
  revert i. induction channels as [|ch rest IH]; intros i; cbn [validate_channels].
  - split; [by intros [= <-] | by intros [-> _]].
  - unfold_bind. split.
    + destruct (py_in "name" ch) as [[|] | e] eqn:Hn; cbn [negb];
        [| done | done].
      destruct (py_in "stream_key" ch) as [[|] | e] eqn:Hk; cbn [negb];
        [| done | done].
      intros H. apply IH in H as [-> Hrest]. split; [done |].
      by constructor.
    + intros [-> Hall]. apply Forall_cons in Hall as [[Hn Hk] Hrest].
      rewrite Hn. cbn [negb]. rewrite Hk. cbn [negb]. by apply IH.
Qed.

(** X16: [validate_channel_config] accepts a configuration exactly when
    it has a [channels] entry that is a list (possibly empty) of entries
    that each have a [name] and a [stream_key]. *)
Theorem validate_channel_config_valid_iff (config : json) (m : string) :
  validate_channel_config config = Ok (true, m)
  <-> m = "Valid configuration"
      /\ exists channels,
           py_in "channels" config = Ok true
           /\ Json.getitem config "channels" = Ok (JArr channels)
           /\ Forall channel_entry_ok channels.
Proof.
  unfold validate_channel_config. unfold_bind. split.
  - destruct (py_in "channels" config) as [[|] | e]; cbn [negb]; [| done | done].
    destruct (Json.getitem config "channels") as [[| | | | items |] | e]; try done.
    intros H. apply validate_channels_valid_iff in H as [-> Hall].
    split; [done |]. by exists items.
  - intros [-> (channels & -> & -> & Hall)]. cbn [negb].
    by apply validate_channels_valid_iff.
Qed.

Lemma validate_channels_first_offender i good bad rest field :
  Forall channel_entry_ok good ->
  (field = "name" /\ py_in "name" bad = Ok false)
  \/ (field = "stream_key" /\ py_in "name" bad = Ok true
      /\ py_in "stream_key" bad = Ok false) ->
  validate_channels i (good ++ bad :: rest)
  = Ok (false, "Channel " ++ pretty (S (i + length good))
               ++ " missing required field: " ++ field).
Proof.
  intros Hgood Hbad. revert i.
  induction Hgood as [|ch good [Hn Hk] Hgood IH]; intros i.
  - cbn [app length validate_channels]. rewrite Nat.add_0_r. unfold_bind.
    destruct Hbad as [[-> ->] | (-> & -> & ->)]; reflexivity.
  - cbn [app length validate_channels]. unfold_bind. rewrite Hn, Hk.
    cbn [negb]. fold (validate_channels (S i) (good ++ bad :: rest)).
    rewrite IH. by rewrite Nat.add_succ_r.
Qed.

(** X17: when a channel entry lacks [name], or has it and lacks
    [stream_key], and all entries before it are complete,
    [validate_channel_config] rejects the configuration and names that
    entry by its position counted from 1, and the first field it lacks. *)
Theorem validate_channel_config_reports_first_offender (config : json)
    (good : list json) (bad : json) (rest : list json) (field : string) :
  py_in "channels" config = Ok true ->
  Json.getitem config "channels" = Ok (JArr (good ++ bad :: rest)) ->
  Forall channel_entry_ok good ->
  (field = "name" /\ py_in "name" bad = Ok false)
  \/ (field = "stream_key" /\ py_in "name" bad = Ok true
      /\ py_in "stream_key" bad = Ok false) ->
  validate_channel_config config
  = Ok (false, "Channel " ++ pretty (S (length good))
               ++ " missing required field: " ++ field).
Proof.
  intros Hin Hchannels Hgood Hbad. unfold validate_channel_config. unfold_bind.
  rewrite Hin, Hchannels. cbn [negb].
  by rewrite (validate_channels_first_offender 0 good bad rest field).
Qed.

(** X14: of an uploaded OAuth file that is a JSON object,
    [load_google_oauth_config] returns the [web] section when there is
    one, whatever else the file holds, else the [installed] section, else
    nothing. *)
Theorem load_google_oauth_config_web_first (fields : list (string * json))
    (w : World) :
  (load_google_oauth_config (Ok (JObj fields)) w).1
  = match Json.assoc "web" fields with
    | Some web => Some web
    | None => Json.assoc "installed" fields
    end.
Proof.
  unfold load_google_oauth_config. unfold_bind. cbn [py_in Json.getitem].
  destruct (Json.assoc "web" fields) as [web |].
  - by rewrite bool_decide_eq_true_2 by eauto.
  - rewrite bool_decide_eq_false_2 by (intros [? ?]; done).
    destruct (Json.assoc "installed" fields) as [installed |].
    + by rewrite bool_decide_eq_true_2 by eauto.
    + by rewrite bool_decide_eq_false_2 by (intros [? ?]; done).
Qed.

(** X18: when [generate_auth_url] returns a URL, it is the authorization
    endpoint of the configuration followed by the client id, the first
    redirect URI quoted, the quoted scope, and then always
    [response_type=code], [access_type=offline] and [prompt=consent]. *)
Theorem generate_auth_url_shape (client_config : json) (w : World)
    (url : string) :
  (generate_auth_url client_config w).1 = Some url ->
  exists auth_uri client_id uris uri,
    Json.getitem client_config "auth_uri" = Ok auth_uri
    /\ Json.getitem client_config "client_id" = Ok client_id
    /\ Json.getitem client_config "redirect_uris" = Ok uris
    /\ Json.getitem0 uris = Ok (JStr uri)
    /\ url = py_str auth_uri ++ "?client_id=" ++ py_str client_id
             ++ "&redirect_uri=" ++ quote uri
             ++ "&scope=" ++ quote oauth_scope
             ++ "&response_type=code&access_type=offline&prompt=consent".
Proof.
  unfold generate_auth_url. unfold_bind.
  destruct (Json.getitem client_config "auth_uri") as [auth_uri | e] eqn:H1;
    [| done].
  destruct (Json.getitem client_config "client_id") as [client_id | e] eqn:H2;
    [| done].
  destruct (Json.getitem client_config "redirect_uris") as [uris | e] eqn:H3;
    [| done].
  destruct (Json.getitem0 uris) as [[| | | uri | |] | e] eqn:H4; try done.
  cbn [quote_value fst]. intros [= <-].
  by exists auth_uri, client_id, uris, uri.
Qed.

(** ** The table of saved channels *)

Lemma filter_named_other name (table : list channel_row) :
  List.filter (fun x => String.eqb (cr_channel_name x) name)
    (List.filter (other_channel name) table) = [].
Proof.
  induction table as [|x table IH]; [done |]. cbn [List.filter].
  unfold other_channel at 1.
  destruct (String.eqb (cr_channel_name x) name) eqn:E; cbn [negb]; [done |].
  cbn [List.filter]. by rewrite E.
Qed.

Lemma filter_other_idem name (table : list channel_row) :
  List.filter (other_channel name) (List.filter (other_channel name) table)
  = List.filter (other_channel name) table.
Proof.
  induction table as [|x table IH]; [done |]. cbn [List.filter].
  destruct (other_channel name x) eqn:E; [| done].
  cbn [List.filter]. by rewrite E, IH.
Qed.

(** X19: saving a channel is an upsert on its name: with a working
    database, the table then holds exactly one row of that name, with the
    id and the credentials just given and the time of the call, and the
    rows of other names are those it held before, in the same order. *)
Theorem save_channel_row_upserts (channel_name channel_id : string)
    (auth_data : json) (table : list channel_row) (w : World) :
  w_db_ok w = true ->
  let r := save_channel_row channel_name channel_id auth_data table w in
  r.1.1 = true
  /\ (exists row,
        List.filter (fun x => String.eqb (cr_channel_name x) channel_name) r.1.2
          = [row]
        /\ cr_channel_id row = channel_id
        /\ cr_auth_data row = auth_data
        /\ cr_created_at row = isoformat (now w)
        /\ cr_last_used row = isoformat (now (tick w)))
  /\ List.filter (other_channel channel_name) r.1.2
     = List.filter (other_channel channel_name) table.
Proof.
  intros Hok. cbn zeta. unfold save_channel_row. rewrite Hok.
  cbn [fst snd]. unfold insert_or_replace_channel. cbn [cr_channel_name].
  split; [done |]. split.
  - eexists. rewrite List.filter_app, filter_named_other. cbn [List.filter app].
    cbn [cr_channel_name]. rewrite String.eqb_refl. done.
  - rewrite List.filter_app, filter_other_idem. cbn [List.filter].
    unfold other_channel at 2. cbn [cr_channel_name].
    rewrite String.eqb_refl. cbn [negb]. by rewrite app_nil_r.
Qed.

Lemma insert_channel_desc_perm r l : insert_channel_desc r l ≡ₚ r :: l.
Proof.
  induction l as [|x l IH]; cbn [insert_channel_desc]; [done |].
  destruct (String.ltb _ _); [done |].
  rewrite IH. apply Permutation_swap.
Qed.

Lemma insert_channel_desc_sorted r l :
  Sorted recent_first l -> Sorted recent_first (insert_channel_desc r l).
Proof.
  induction l as [|x l IH]; intros Hs; cbn [insert_channel_desc].
  - repeat constructor.
  - destruct (String.ltb (cr_last_used x) (cr_last_used r)) eqn:E.
    + constructor; [exact Hs |]. constructor. by apply ltb_true_leb.
    + inversion Hs as [|? ? Hl Hhd]; subst. constructor; [by apply IH |].
      destruct l as [|y l]; cbn [insert_channel_desc].
      * constructor. by apply ltb_false_leb.
      * destruct (String.ltb (cr_last_used y) (cr_last_used r)).
        -- constructor. by apply ltb_false_leb.
        -- constructor. by inversion Hhd.
Qed.

(** X20: with a working database, [load_saved_channels] returns one
    dictionary per row of the table, no row lost or repeated, from the
    most recently used channel to the least recently used; when the
    database fails it returns the empty list. *)
Theorem load_saved_channels_by_recency (table : list channel_row) (w : World) :
  (w_db_ok w = true ->
   exists rows,
     (load_saved_channels table w).1 = channel_dict <$> rows
     /\ rows ≡ₚ table
     /\ Sorted recent_first rows)
  /\ (w_db_ok w = false -> (load_saved_channels table w).1 = []).
Proof.
  unfold load_saved_channels. split; intros ->; [| done].
  exists (foldr insert_channel_desc [] table). split; [done |].
  induction table as [|r table [IHp IHs]]; [by split; [| constructor] |].
  cbn [foldr]. split.
  - by rewrite insert_channel_desc_perm, IHp.
  - by apply insert_channel_desc_sorted.
Qed.

(** X21: [update_channel_last_used] changes nothing but the time of last
    use: names, ids and credentials of all rows stay as they are; and when
    no row has the given name, the table is unchanged and, the database
    answering, no error is reported. *)
Theorem update_channel_last_used_only_touches (channel_name : string)
    (table : list channel_row) (w : World) :
  let r := update_channel_last_used channel_name table w in
  cr_channel_name <$> r.1 = cr_channel_name <$> table
  /\ cr_channel_id <$> r.1 = cr_channel_id <$> table
  /\ cr_auth_data <$> r.1 = cr_auth_data <$> table
  /\ cr_created_at <$> r.1 = cr_created_at <$> table
  /\ (Forall (fun x => cr_channel_name x <> channel_name) table ->
      r.1 = table /\ (w_db_ok w = true -> w_ui r.2 = w_ui w)).
Proof.
  cbn zeta. unfold update_channel_last_used.
  destruct (w_db_ok w); cbn [fst snd]; [| done].
  assert (Hfield : forall {B} (f : channel_row -> B),
             (forall x stamp, f (touch_channel channel_name stamp x) = f x) ->
             f <$> (touch_channel channel_name (isoformat (now w)) <$> table)
             = f <$> table).
  { intros B f Hf. rewrite <- list_fmap_compose. apply list_fmap_ext.
    intros i x _. apply Hf. }
  repeat (split; [apply Hfield; intros x stamp; unfold touch_channel;
                  by destruct (String.eqb _ _) |]).
  intros Hnone. split; [| done]. clear Hfield.
  induction Hnone as [|x table Hx Hall IH]; [done |].
  cbn [fmap list_fmap]. f_equal; [| exact IH].
  unfold touch_channel. by rewrite (proj2 (String.eqb_neq _ _) Hx).
Qed.

(** ** Tags *)

Lemma lstrip_head s c r : lstrip s = String c r -> is_space c = false.
Proof.
  induction s as [|c' s IH]; [done |]. cbn [lstrip].
  destruct (is_space c') eqn:E; [exact IH |]. by intros [= <- _].
Qed.

Lemma rstrip_head s c r : rstrip s = String c r -> exists s', s = String c s'.
Proof.
  destruct s as [|c' s]; [done |]. cbn [rstrip].
  destruct (rstrip s); [destruct (is_space c'); [done |] |];
    intros [= <- _]; by eexists.
Qed.

Lemma rstrip_idem s : rstrip (rstrip s) = rstrip s.
Proof.
  induction s as [|c s IH]; [done |]. cbn [rstrip].
  destruct (rstrip s) as [|c' r] eqn:E.
  - destruct (is_space c) eqn:Ec; [done |]. cbn [rstrip]. by rewrite Ec.
  - cbn [rstrip]. cbn [rstrip] in IH. by rewrite IH.
Qed.

Lemma strip_idem s : strip (strip s) = strip s.
Proof.
  unfold strip. destruct (rstrip (lstrip s)) as [|c r] eqn:E; [done |].
  destruct (rstrip_head _ _ _ E) as [s' Hs'].
  apply lstrip_head in Hs'. cbn [lstrip]. rewrite Hs'.
  by rewrite <- E, rstrip_idem.
Qed.

Lemma string_app_cons c (a b : string) :
  (String c a ++ b)%string = String c (a ++ b)%string.
Proof. reflexivity. Qed.

Lemma string_app_empty_r (a : string) : (a ++ "")%string = a.
Proof.
  induction a as [|c a IH]; [reflexivity |].
  by rewrite string_app_cons, IH.
Qed.

Lemma has_char_app c (a b : string) :
  has_char c (a ++ b)%string = has_char c a || has_char c b.
Proof.
  induction a as [|x a IH]; [reflexivity |].
  rewrite string_app_cons. cbn [has_char]. rewrite IH. by destruct (Ascii.eqb x c).
Qed.

Lemma lstrip_has_char c s : has_char c s = false -> has_char c (lstrip s) = false.
Proof.
  induction s as [|x s IH]; [done |]. cbn [lstrip].
  destruct (is_space x); [| done]. cbn [has_char].
  intros H. apply orb_false_iff in H as [_ H]. by apply IH.
Qed.

Lemma rstrip_has_char c s : has_char c s = false -> has_char c (rstrip s) = false.
Proof.
  induction s as [|x s IH]; [done |]. cbn [has_char rstrip].
  intros H. apply orb_false_iff in H as [Hx H]. specialize (IH H).
  destruct (rstrip s).
  - destruct (is_space x); [done |]. cbn [has_char]. by rewrite Hx.
  - cbn [has_char] in *. by rewrite Hx, IH.
Qed.

Lemma split_on_aux_has_char c s cur :
  has_char c cur = false ->
  Forall (fun part => has_char c part = false) (split_on_aux c cur s).
Proof.
  revert cur. induction s as [|x s IH]; intros cur Hcur; cbn [split_on_aux].
  - by constructor.
  - destruct (Ascii.eqb x c) eqn:E.
    + constructor; [exact Hcur |]. by apply IH.
    + apply IH. rewrite has_char_app, Hcur. cbn [has_char]. by rewrite E.
Qed.

Lemma parse_tags_all_clean (tags_input : string) :
  Forall clean_tag (parse_tags tags_input).
Proof.
  unfold parse_tags. destruct (str_truthy tags_input); [| constructor].
  apply Forall_forall. intros tag Hin.
  apply list_elem_of_In, List.filter_In in Hin as [Hin Htruthy].
  split; [exact Htruthy |].
  apply list_elem_of_In, list_elem_of_fmap in Hin as (part & -> & Hpart).
  split; [apply strip_idem |].
  apply rstrip_has_char, lstrip_has_char.
  pose proof (split_on_aux_has_char comma tags_input "" eq_refl) as Hall.
  rewrite Forall_forall in Hall. by apply Hall.
Qed.

(** X22: the tags read from the text input are never empty, carry no
    white space at either end and no comma. *)
Theorem parse_tags_clean (tags_input : string) :
  Forall (fun tag => str_truthy tag = true /\ strip tag = tag
                     /\ has_char comma tag = false)
    (parse_tags tags_input).
Proof. apply parse_tags_all_clean. Qed.

Lemma split_on_aux_app c (part rest cur : string) :
  has_char c part = false ->
  split_on_aux c cur (part ++ rest) = split_on_aux c (cur ++ part) rest.
Proof.
  revert cur. induction part as [|x part IH]; intros cur Hpart.
  - by rewrite string_app_empty_r.
  - cbn [has_char] in Hpart. apply orb_false_iff in Hpart as [Hx Hpart].
    rewrite string_app_cons. cbn [split_on_aux]. rewrite Hx.
    rewrite (IH _ Hpart). f_equal.
    by rewrite string_app_assoc.
Qed.

Lemma split_on_aux_join (tags : list string) (tag cur : string) :
  has_char comma tag = false ->
  Forall (fun t => has_char comma t = false) tags ->
  split_on_aux comma cur (join ", " (tag :: tags))
  = (cur ++ tag)%string :: ((fun t => " " ++ t)%string <$> tags).
Proof.
  intros Htag Htags. revert tag cur Htag.
  induction Htags as [|t tags Ht Htags IH]; intros tag cur Htag.
  - cbn [join]. rewrite <- (string_app_empty_r tag) at 1.
    by rewrite split_on_aux_app.
  - change (join ", " (tag :: t :: tags))
      with (tag ++ String comma (String (Ascii.ascii_of_nat 32)
                                   (join ", " (t :: tags))))%string.
    rewrite split_on_aux_app by exact Htag.
    cbn [split_on_aux]. rewrite Ascii.eqb_refl.
    replace (Ascii.eqb (Ascii.ascii_of_nat 32) comma) with false by reflexivity.
    rewrite (IH t _ Ht). reflexivity.
Qed.

Lemma strip_after_space (tag : string) :
  strip tag = tag -> strip (" " ++ tag) = tag.
Proof. intros H. unfold strip in *. exact H. Qed.

Lemma strip_spaced_tags (tags : list string) :
  Forall clean_tag tags ->
  List.filter str_truthy (strip <$> ((fun t => " " ++ t)%string <$> tags)) = tags.
Proof.
  induction 1 as [|t tags (Ht & Hs & _) Hclean IH]; [done |].
  cbn [fmap list_fmap List.filter].
  rewrite (strip_after_space t Hs), Ht. by f_equal.
Qed.

(** X23: the tags written out with [", ".join], as they are shown and
    stored with the session, read back as the same tags. *)
Theorem parse_tags_of_joined_tags (tags_input : string) :
  parse_tags (join ", " (parse_tags tags_input)) = parse_tags tags_input.
Proof.
  pose proof (parse_tags_all_clean tags_input) as Hclean.
  destruct (parse_tags tags_input) as [|tag tags]; [reflexivity |].
  apply Forall_cons in Hclean as [(Htruthy & Hstrip & Hcomma) Hclean].
  unfold parse_tags at 1.
  assert (Hjoined : str_truthy (join ", " (tag :: tags)) = true).
  { destruct tag as [|c tag]; [done |]. by destruct tags. }
  rewrite Hjoined. unfold split_on.
  rewrite split_on_aux_join;
    [| exact Hcomma | eapply Forall_impl; [exact Hclean |]; by intros ? (_ & _ & ?)].
  cbn [fmap list_fmap List.filter]. change ("" ++ tag)%string with tag.
  rewrite Hstrip, Htruthy. f_equal. by apply strip_spaced_tags.
Qed.

(** ** More on the supervisor and the provisioning button *)

Lemma record_lines sid v lines (seen : list string) (w : World) :
  (foldl (fun acc line =>
            log_both record_callback sid "FFMPEG" (strip line) v acc)
         (seen, w) lines).1
  = (seen ++ (strip <$> lines))%list.
Proof.
  revert seen w. induction lines as [|line lines IH]; intros seen w.
  - by rewrite app_nil_r.
  - cbn [foldl]. unfold log_both at 2, record_callback. cbn [fst snd].
    destruct (opt_truthy sid); rewrite IH; cbn; by rewrite <- app_assoc.
Qed.

(** X24: the callback is given every message in order, whether or not
    the database answers and whether or not a session id is given: the
    start message, the lines of the encoder as they arrive (stripped), then
    the message of completion, for any return code, or the error
    message, and last the final message. *)
Theorem run_ffmpeg_feeds_callback_in_order
    (popen : list string -> popen_outcome) (video_path : string)
    (stream_key : json) (is_shorts : bool) (rtmp_url sid : option string)
    (seen : list string) (w : World) :
  let cmd := ffmpeg_cmd video_path stream_key is_shorts rtmp_url in
  (run_ffmpeg record_callback popen video_path stream_key is_shorts rtmp_url
     sid (seen, w)).1
  = (seen ++ [start_msg cmd] ++
     match popen cmd with
     | LaunchFailed e => [error_msg e]
     | Ran lines (Exited _) => (strip <$> lines) ++ [end_msg]
     | Ran lines (ReadFailed e) => (strip <$> lines) ++ [error_msg e]
     end ++ [final_msg])%list.
Proof.
  cbn zeta. unfold run_ffmpeg.
  set (cmd := ffmpeg_cmd video_path stream_key is_shorts rtmp_url).
  assert (Hstep : forall ty m (tw : list string * World),
            (log_both record_callback sid ty m video_path tw).1
            = (tw.1 ++ [m])%list).
  { intros ty m [l w']. unfold log_both, record_callback. cbn [fst snd].
    by destruct (opt_truthy sid). }
  rewrite Hstep.
  destruct (popen cmd) as [e | lines [code | e]].
  - rewrite !Hstep. cbn [fst]. by rewrite <- !app_assoc.
  - rewrite Hstep.
    destruct (log_both record_callback sid "INFO" (start_msg cmd) video_path
                (seen, w)) as [seen1 w1] eqn:E.
    rewrite record_lines. pose proof (Hstep "INFO" (start_msg cmd) (seen, w)) as H1.
    rewrite E in H1. cbn [fst] in H1. subst seen1. by rewrite <- !app_assoc.
  - rewrite Hstep.
    destruct (log_both record_callback sid "INFO" (start_msg cmd) video_path
                (seen, w)) as [seen1 w1] eqn:E.
    rewrite record_lines. pose proof (Hstep "INFO" (start_msg cmd) (seen, w)) as H1.
    rewrite E in H1. cbn [fst] in H1. subst seen1. by rewrite <- !app_assoc.
Qed.

(** X25: without a session id ([None], the default, or the empty
    string) [run_ffmpeg] writes nothing to [streaming_logs]: the run is
    seen by the callback only. *)
Theorem run_ffmpeg_without_session_writes_no_row
    (popen : list string -> popen_outcome) (video_path : string)
    (stream_key : json) (is_shorts : bool) (rtmp_url sid : option string)
    (s : SessionState) (w : World) :
  opt_truthy sid = false ->
  w_logs (run_ffmpeg log_callback popen video_path stream_key is_shorts
            rtmp_url sid (s, w)).2 = w_logs w.
Proof.
  intros Hsid.
  assert (Hstep : forall ty m tw,
            w_logs (log_both log_callback sid ty m video_path tw).2
            = w_logs tw.2).
  { intros ty m [s' w']. unfold log_both, log_callback. cbn [fst snd].
    by rewrite Hsid. }
  unfold run_ffmpeg. rewrite Hstep.
  assert (Hlines : forall lines tw,
            w_logs (foldl (fun acc line =>
                      log_both log_callback sid "FFMPEG" (strip line)
                        video_path acc) tw lines).2 = w_logs tw.2).
  { induction lines as [|line lines IH]; intros tw; [done |].
    cbn [foldl]. by rewrite IH, Hstep. }
  destruct (popen _) as [e | lines [code | e]];
    by rewrite ?Hstep, ?Hlines, ?Hstep.
Qed.

(** X26: [Create YouTube Live] either leaves the session as it is, or
    it has created a stream and the session now holds, as current stream
    key, the stream name of that very stream, together with the
    information on the broadcast. *)
Theorem create_live_button_keeps_created_key (form : stream_form)
    (s : SessionState) (w : World) :
  let r := create_live_button form s w in
  r.1 = s
  \/ exists service stream_response cdn ingestion key info,
       youtube_service s = Some service
       /\ liveStreams_insert service
            (stream_body (f_title form) (f_description form))
          = Ok stream_response
       /\ Json.getitem stream_response "cdn" = Ok cdn
       /\ Json.getitem cdn "ingestionInfo" = Ok ingestion
       /\ Json.getitem ingestion "streamName" = Ok key
       /\ current_stream_key r.1 = Some key
       /\ live_broadcast_info r.1 = Some info
       /\ Json.getitem info "stream_key" = Ok key.
Proof.
  cbn zeta. unfold create_live_button.
  destruct (youtube_service s) as [service |] eqn:Hservice; [| by left].
  destruct (add_seconds (now w) 30) as [scheduled | e]; [| by left].
  unfold create_live_stream, create_failed.
  destruct (liveStreams_insert service _) as [sr | e] eqn:Hsr; [| by left].
  destruct (liveBroadcasts_insert service _) as [br | e]; [| by left].
  destruct (_ ← Json.getitem br "id"; _) as [[id sid] | e]; [| by left].
  destruct (liveBroadcasts_bind service id sid); [| by left].
  unfold live_info_of. unfold_bind.
  destruct (Json.getitem sr "cdn") as [cdn | e] eqn:Hcdn; [| by left].
  destruct (Json.getitem cdn "ingestionInfo") as [ing | e] eqn:Hing; [| by left].
  destruct (Json.getitem ing "streamName") as [key | e] eqn:Hkey; [| by left].
  destruct (Json.getitem ing "ingestionAddress") as [url | e]; [| by left].
  destruct (Json.getitem br "id") as [bid | e]; [| by left].
  destruct (Json.getitem sr "id") as [stid | e]; [| by left].
  right. eexists service, sr, cdn, ing, key, _. by repeat split.
Qed.

End Orchestrator.

(** * The properties on the example inputs *)

(** C1, as the spec states it, fails: a second press of [Start Streaming]
    while the first session is active is accepted and starts a second
    encoder thread. *)
Lemma start_button_accepts_second_start :
  let r1 := start_button ex_clock ex_isoformat ex_inputs ex_state ex_world in
  let r2 := start_button ex_clock ex_isoformat ex_inputs r1.1.2 r1.2 in
  streaming r1.1.2 = Some true
  /\ r2.1.1 = StartStarted
  /\ length (launched r2.2) = 2%nat
  /\ kill_attempts r2.2 = 0%nat.
Proof. vm_compute. repeat split. Qed.

Lemma start_button_while_streaming_witness :
  exists args s' w',
    start_button ex_clock ex_isoformat ex_inputs ex_active ex_world
      = (StartStarted, s', w')
    /\ launched w' = (launched ex_world ++ [args])%list
    /\ fa_video_path args = "demo.mp4"
    /\ fa_stream_key args = default (JStr "") (current_stream_key ex_active)
    /\ kill_attempts w' = kill_attempts ex_world
    /\ streaming s' = Some true
    /\ ffmpeg_thread s' = Some args
    /\ UiSuccess "Streaming started!" ∈ w_ui w'
    /\ w_os w' = (w_os ex_world ++ [ThreadStart args])%list
    /\ w_files w' = w_files ex_world.
Proof.
  apply (start_button_while_streaming ex_clock ex_isoformat ex_inputs
           ex_active ex_world "demo.mp4" (JStr "Unknown")); reflexivity.
Defined.

(** C2, as the spec states it, fails: the second press of [Stop Streaming]
    runs [pkill ffmpeg] again. *)
Lemma stop_button_second_press_kills_again :
  let sw1 := stop_button ex_clock ex_isoformat ex_active ex_world in
  let sw2 := stop_button ex_clock ex_isoformat sw1.1 sw1.2 in
  kill_attempts sw1.2 = 1%nat
  /\ kill_attempts sw2.2 = 2%nat
  /\ w_os sw2.2 = [System "pkill ffmpeg"; System "pkill ffmpeg"].
Proof. vm_compute. repeat split. Qed.

(** C3 fails on the manual path: after the URL path has exchanged a code
    and recorded it in [processed_codes], the button [Exchange Code for
    Tokens] given the same code posts it to the token endpoint again and,
    the endpoint answering, connects again. *)
Theorem manual_exchange_replays_code :
  let r1 := auto_process_auth_code ex_clock ex_isoformat ex_str ex_post
              ex_build (Some ex_code) ex_with_oauth ex_world in
  let r2 := exchange_button ex_clock ex_isoformat ex_str ex_post ex_build
              ex_oauth ex_code r1.1.2 r1.2 in
  r1.1.1 = AuthConnected
  /\ bool_decide (ex_code ∈ default ∅ (processed_codes r1.1.2)) = true
  /\ r2.1.1 = AuthConnected
  /\ pr_code <$> w_http r2.2 = [ex_code; ex_code].
Proof. vm_compute. repeat split. Qed.

(** C4, as the spec states it, fails: three rows emitted in this order
    come back newest first, not oldest first. *)
Lemma select_logs_not_in_emission_order :
  select_logs (Some "session_20240101_000000") 100 ex_rows
    = view_of <$> reverse ex_rows
  /\ ~ Sorted older_first
        (select_logs (Some "session_20240101_000000") 100 ex_rows).
Proof.
  split; [reflexivity |].
  intros Hs. apply Sorted_inv in Hs as [_ Hhd].
  apply HdRel_inv in Hhd. vm_compute in Hhd. discriminate.
Qed.

Lemma select_logs_newest_first_witness :
  select_logs (Some "session_20240101_000000") 2 ex_rows
  = view_of <$> sql_limit 2
      (reverse (List.filter (session_is "session_20240101_000000") ex_rows)).
Proof.
  apply (proj2 (select_logs_newest_first
                  (Some "session_20240101_000000") 2 ex_rows));
    [reflexivity |].
  vm_compute. repeat constructor.
Defined.

(** C5, as the spec states it, fails: the encoder prints the destination
    it opens, [run_ffmpeg] logs the line as it is, and the stream key is in
    the live log and in the database. *)
Lemma run_ffmpeg_logs_the_stream_key :
  let sw := ffmpeg_thread_body ex_clock ex_isoformat ex_strftime ex_str
              ex_popen ex_args (ex_state, ex_world) in
  existsb (fun r => contains "ABCD-1234-EFGH" (lr_message r)) (w_logs sw.2)
    = true
  /\ existsb (contains "ABCD-1234-EFGH") (default [] (live_logs sw.1)) = true.
Proof. vm_compute. split; reflexivity. Qed.

Lemma run_ffmpeg_own_messages_hide_destination_witness :
  run_ffmpeg ex_clock ex_isoformat ex_str (log_callback ex_clock ex_strftime)
    ex_popen_quiet "demo.mp4" (JStr "ABCD-1234-EFGH") false None
    (Some "session_20240101_000000") (ex_state, ex_world)
  = run_ffmpeg ex_clock ex_isoformat ex_str (log_callback ex_clock ex_strftime)
      ex_popen_quiet "demo.mp4" (JStr "WXYZ-9876") false
      (Some "rtmp://example.org/live/k") (Some "session_20240101_000000")
      (ex_state, ex_world).
Proof.
  apply (proj2 (run_ffmpeg_own_messages_hide_destination ex_clock ex_isoformat
                  ex_str (log_callback ex_clock ex_strftime) ex_popen_quiet
                  "demo.mp4" (JStr "ABCD-1234-EFGH") (JStr "WXYZ-9876") false
                  None (Some "rtmp://example.org/live/k")
                  (Some "session_20240101_000000") (ex_state, ex_world))).
  reflexivity.
Defined.

Lemma run_ffmpeg_ends_with_final_line_witness :
  exists r,
    last (w_logs (run_ffmpeg ex_clock ex_isoformat ex_str
                    (log_callback ex_clock ex_strftime) ex_popen "demo.mp4"
                    (JStr "ABCD-1234-EFGH") false None
                    (Some "session_20240101_000000") (ex_state, ex_world)).2)
      = Some r
    /\ lr_message r = final_msg /\ lr_log_type r = "INFO"
    /\ lr_session_id r = "session_20240101_000000".
Proof.
  apply (proj2 (run_ffmpeg_ends_with_final_line ex_clock ex_isoformat
                  ex_strftime ex_str ex_popen "demo.mp4"
                  (JStr "ABCD-1234-EFGH") false None
                  (Some "session_20240101_000000") ex_state ex_world));
    reflexivity.
Defined.

Lemma create_live_stream_binds_created_stream_witness :
  let run := create_live_stream ex_isoformat ex_str ex_service "Live Stream"
               "Live streaming session" 30000000 ["a"; "b"] "20" "unlisted"
               false ex_world in
  exists stream_response broadcast_response stream_id broadcast_id bind_response,
    liveStreams_insert ex_service
        (stream_body "Live Stream" "Live streaming session")
      = Ok stream_response
    /\ Json.getitem stream_response "id" = Ok stream_id
    /\ liveBroadcasts_insert ex_service
         (broadcast_body ex_isoformat "Live Stream" "Live streaming session"
            30000000 ["a"; "b"] "20" "unlisted" false)
       = Ok broadcast_response
    /\ Json.getitem broadcast_response "id" = Ok broadcast_id
    /\ liveBroadcasts_bind ex_service broadcast_id stream_id = Ok bind_response
    /\ w_api run.2 =
       (w_api ex_world ++
        [StreamsInsert (stream_body "Live Stream" "Live streaming session");
         BroadcastsInsert
           (broadcast_body ex_isoformat "Live Stream" "Live streaming session"
              30000000 ["a"; "b"] "20" "unlisted" false);
         BroadcastsBind broadcast_id stream_id])%list
    /\ Json.getitem (default JNull run.1) "stream_id" = Ok stream_id
    /\ Json.getitem (default JNull run.1) "broadcast_id" = Ok broadcast_id.
Proof.
  cbn zeta.
  apply (create_live_stream_binds_created_stream ex_isoformat ex_str
           ex_service "Live Stream" "Live streaming session" 30000000
           ["a"; "b"] "20" "unlisted" false ex_world).
  vm_compute. reflexivity.
Defined.

Lemma get_broadcast_stream_key_all_or_nothing_witness :
  (get_broadcast_stream_key (ex_service_with (JObj [("items", JArr [])]))
     (JStr "broadcast-9") ex_world).1 = None
  /\ (get_broadcast_stream_key
        (ex_service_with
           (JObj [("items", JArr [JObj [("contentDetails", JObj [])]])]))
        (JStr "broadcast-2") ex_world).1 = None
  /\ exists broadcast_response items stream_id stream_response stream_items
            stream_key stream_url,
       liveBroadcasts_list ex_service (JStr "broadcast-1") = Ok broadcast_response
       /\ Json.getitem broadcast_response "items" = Ok items
       /\ Json.truthy items = true
       /\ bound_stream_id items = Ok stream_id
       /\ Json.truthy stream_id = true
       /\ liveStreams_list ex_service stream_id = Ok stream_response
       /\ Json.getitem stream_response "items" = Ok stream_items
       /\ Json.truthy stream_items = true
       /\ stream_info_of stream_items stream_id
          = Ok (JObj [("stream_key", JStr "ABCD-1234-EFGH");
                      ("stream_url", JStr "rtmp://a.rtmp.youtube.com/live2");
                      ("stream_id", JStr "stream-1")])
       /\ JObj [("stream_key", JStr "ABCD-1234-EFGH");
                ("stream_url", JStr "rtmp://a.rtmp.youtube.com/live2");
                ("stream_id", JStr "stream-1")]
          = JObj [("stream_key", stream_key); ("stream_url", stream_url);
                  ("stream_id", stream_id)].
Proof.
  split; [| split].
  - apply (proj1 (get_broadcast_stream_key_all_or_nothing
                    (ex_service_with (JObj [("items", JArr [])]))
                    (JStr "broadcast-9") ex_world)
             (JObj [("items", JArr [])]) (JArr [])); reflexivity.
  - apply (proj1 (proj2 (get_broadcast_stream_key_all_or_nothing
                    (ex_service_with
                       (JObj [("items", JArr [JObj [("contentDetails", JObj [])]])]))
                    (JStr "broadcast-2") ex_world))
             (JObj [("items", JArr [JObj [("contentDetails", JObj [])]])])
             (JArr [JObj [("contentDetails", JObj [])]]) JNull); reflexivity.
  - apply (proj2 (proj2 (get_broadcast_stream_key_all_or_nothing
                    ex_service (JStr "broadcast-1") ex_world))).
    reflexivity.
Defined.

Lemma create_live_button_schedules_in_30_seconds_witness :
  scheduled_start_of
    (broadcast_body ex_isoformat "Live Stream" "Live streaming session"
       30000000 ["a"; "b"] "20" "unlisted" false)
  = Ok (JStr (ex_isoformat (now ex_clock ex_world + 30 * 1000000))).
Proof.
  apply (create_live_button_schedules_in_30_seconds ex_clock ex_isoformat
           ex_str ex_form ex_connected ex_world).
  vm_compute. repeat constructor.
Defined.

(** ** The further properties on the example inputs *)

Lemma select_logs_only_of_session_witness :
  exists r,
    r ∈ ex_rows /\ lr_session_id r = "session_20240101_000000"
    /\ view_of (ex_row "2024-01-01T00:00:03.000000" "frame=   61") = view_of r.
Proof.
  apply (select_logs_only_of_session "session_20240101_000000" 100 ex_rows
           (view_of (ex_row "2024-01-01T00:00:03.000000" "frame=   61")));
    [reflexivity |].
  vm_compute. constructor.
Defined.

Lemma select_logs_without_session_returns_all_witness :
  select_logs (Some "") (-1) ex_rows ≡ₚ view_of <$> ex_rows.
Proof.
  apply (select_logs_without_session_returns_all (Some "") (-1) ex_rows);
    reflexivity.
Defined.

Lemma run_ffmpeg_appends_rows_in_arrival_order_witness :
  exists first rows completed final,
    w_logs (run_ffmpeg ex_clock ex_isoformat ex_str
              (log_callback ex_clock ex_strftime) ex_popen_quiet "demo.mp4"
              (JStr "ABCD-1234-EFGH") false None
              (Some "session_20240101_000000") (ex_state, ex_world)).2
      = (w_logs ex_world ++ [first] ++ rows ++ [completed; final])%list
    /\ lr_message <$> rows = strip <$> ["frame=    1 fps=0.0"]
    /\ lr_message completed = end_msg.
Proof.
  destruct (run_ffmpeg_appends_rows_in_arrival_order ex_clock ex_isoformat
              ex_strftime ex_str ex_popen_quiet "demo.mp4"
              (JStr "ABCD-1234-EFGH") false None "session_20240101_000000"
              ex_state ex_world ["frame=    1 fps=0.0"] 0
              eq_refl eq_refl eq_refl)
    as (first & rows & completed & final & H1 & _ & H2 & H3 & _).
  by exists first, rows, completed, final.
Defined.

Lemma run_ffmpeg_launch_failure_rows_witness :
  exists first failed final,
    w_logs (run_ffmpeg ex_clock ex_isoformat ex_str
              (log_callback ex_clock ex_strftime) ex_popen_missing "demo.mp4"
              (JStr "ABCD-1234-EFGH") false None
              (Some "session_20240101_000000") (ex_state, ex_world)).2
      = (w_logs ex_world ++ [first; failed; final])%list
    /\ lr_log_type <$> [first; failed; final] = ["INFO"; "ERROR"; "INFO"].
Proof.
  destruct (run_ffmpeg_launch_failure_rows ex_clock ex_isoformat ex_strftime
              ex_str ex_popen_missing "demo.mp4" (JStr "ABCD-1234-EFGH") false
              None "session_20240101_000000" ex_state ex_world
              "[Errno 2] No such file or directory: 'ffmpeg'"
              eq_refl eq_refl eq_refl)
    as (first & failed & final & H1 & _ & H2).
  by exists first, failed, final.
Defined.

Lemma ffmpeg_cmd_destination_witness :
  output_url ex_str (JStr "ABCD-1234-EFGH") (Some "rtmp://example.org/live/k")
    = "rtmp://example.org/live/k"
  /\ output_url ex_str (JStr "ABCD-1234-EFGH") (Some "")
     = "rtmp://a.rtmp.youtube.com/live2/" ++ ex_str (JStr "ABCD-1234-EFGH").
Proof.
  split.
  - apply (proj1 (proj2 (ffmpeg_cmd_destination ex_str "demo.mp4"
                           (JStr "ABCD-1234-EFGH") false
                           (Some "rtmp://example.org/live/k")))).
    reflexivity.
  - apply (proj2 (proj2 (ffmpeg_cmd_destination ex_str "demo.mp4"
                           (JStr "ABCD-1234-EFGH") false (Some "")))).
    reflexivity.
Defined.

Lemma start_button_refuses_without_video_or_key_witness :
  (start_button ex_clock ex_isoformat ex_inputs ex_with_oauth ex_world).1.2
  = ex_with_oauth.
Proof.
  apply (start_button_refuses_without_video_or_key ex_clock ex_isoformat
           ex_inputs ex_with_oauth ex_world).
  right. reflexivity.
Defined.

Lemma start_button_records_session_witness :
  exists row,
    w_sessions (start_button ex_clock ex_isoformat ex_inputs ex_state
                  ex_world).2 !! session_id ex_state = Some row
    /\ sr_video_file row = "demo.mp4"
    /\ sr_tags row = "a, b".
Proof.
  destruct (start_button_records_session ex_clock ex_isoformat ex_inputs
              ex_state ex_world "demo.mp4" (JStr "Unknown")
              eq_refl eq_refl eq_refl eq_refl eq_refl)
    as ((row & Hrow & Hvideo & _ & Htags & _) & _).
  by exists row.
Defined.

Lemma auto_process_auth_code_at_most_once_witness :
  let r := auto_process_auth_code ex_clock ex_isoformat ex_str ex_post
             ex_build (Some ex_code) ex_with_oauth ex_world in
  auto_process_auth_code ex_clock ex_isoformat ex_str ex_post ex_build
    (Some ex_code) r.1.2 r.2 = (AuthIgnored, r.1.2, r.2).
Proof.
  apply (auto_process_auth_code_at_most_once ex_clock ex_isoformat ex_str
           ex_post ex_build ex_code ex_with_oauth ex_world).
  vm_compute. reflexivity.
Defined.

Lemma auto_process_auth_code_failure_not_recorded_witness :
  ex_code ∉ default ∅
    (processed_codes
       (auto_process_auth_code ex_clock ex_isoformat ex_str ex_post_reject
          ex_build (Some ex_code) ex_with_oauth ex_world).1.2).
Proof.
  apply (auto_process_auth_code_failure_not_recorded ex_clock ex_isoformat
           ex_str ex_post_reject ex_build ex_code ex_with_oauth ex_world).
  - cbn. apply not_elem_of_empty.
  - vm_compute. reflexivity.
Defined.

Lemma exchange_code_for_tokens_some_iff_witness :
  (exchange_code_for_tokens ex_post ex_oauth ex_code ex_world).1 = Some ex_tokens.
Proof.
  apply (exchange_code_for_tokens_some_iff ex_post ex_oauth ex_code ex_world
           ex_tokens).
  by eexists _, _.
Defined.

Lemma exchange_code_for_tokens_incomplete_config_witness :
  (exchange_code_for_tokens ex_post ex_oauth_incomplete ex_code ex_world).1 = None
  /\ w_http (exchange_code_for_tokens ex_post ex_oauth_incomplete ex_code
               ex_world).2 = w_http ex_world.
Proof.
  destruct (exchange_code_for_tokens_incomplete_config ex_post
              ex_oauth_incomplete ex_code ex_world "client_secret")
    as (H1 & H2 & _); [| reflexivity | by split].
  apply elem_of_cons. right. apply elem_of_cons. by left.
Defined.

Lemma create_live_stream_leaves_stream_on_failure_witness :
  let r := create_live_stream ex_isoformat ex_str ex_service_refusing
             "Live Stream" "Live streaming session" 30000000 ["a"; "b"] "20"
             "unlisted" false ex_world in
  r.1 = None
  /\ w_api r.2 =
     (w_api ex_world ++
      [StreamsInsert (stream_body "Live Stream" "Live streaming session");
       BroadcastsInsert
         (broadcast_body ex_isoformat "Live Stream" "Live streaming session"
            30000000 ["a"; "b"] "20" "unlisted" false)])%list.
Proof.
  cbn zeta.
  destruct (proj1 (create_live_stream_leaves_stream_on_failure ex_isoformat
                     ex_str ex_service_refusing "Live Stream"
                     "Live streaming session" 30000000 ["a"; "b"] "20"
                     "unlisted" false ex_world ex_stream eq_refl)
              "HttpError 403" eq_refl) as (H1 & H2 & _).
  by split.
Defined.

Lemma get_stream_key_only_creates_only_a_stream_witness :
  exists stream_response stream_key,
    liveStreams_insert ex_service (stream_key_body (ex_stamp (now ex_clock ex_world)))
      = Ok stream_response
    /\ JObj [("stream_key", JStr "ABCD-1234-EFGH");
             ("stream_url", JStr "rtmp://a.rtmp.youtube.com/live2");
             ("stream_id", JStr "stream-1")]
       = JObj [("stream_key", stream_key);
               ("stream_url", JStr "rtmp://a.rtmp.youtube.com/live2");
               ("stream_id", JStr "stream-1")].
Proof.
  destruct (proj2 (proj2 (get_stream_key_only_creates_only_a_stream ex_clock
                            ex_stamp ex_service ex_world))
              (JObj [("stream_key", JStr "ABCD-1234-EFGH");
                     ("stream_url", JStr "rtmp://a.rtmp.youtube.com/live2");
                     ("stream_id", JStr "stream-1")]) eq_refl)
    as (sr & cdn & ing & key & url & id & Hsr & _ & _ & _ & _ & _ & Hinfo).
  exists sr, key. split; [exact Hsr |].
  injection Hinfo as -> -> ->. reflexivity.
Defined.

Lemma validate_channel_config_valid_iff_witness :
  validate_channel_config (ex_channel_config [ex_channel_ok; ex_channel_ok])
  = Ok (true, "Valid configuration").
Proof.
  apply (validate_channel_config_valid_iff
           (ex_channel_config [ex_channel_ok; ex_channel_ok])
           "Valid configuration").
  split; [reflexivity |].
  exists [ex_channel_ok; ex_channel_ok].
  repeat split; repeat constructor.
Defined.

Lemma validate_channel_config_reports_first_offender_witness :
  validate_channel_config
    (ex_channel_config [ex_channel_ok; ex_channel_no_key; ex_channel_ok])
  = Ok (false, "Channel " ++ pretty 2%nat ++ " missing required field: "
               ++ "stream_key").
Proof.
  apply (validate_channel_config_reports_first_offender
           (ex_channel_config [ex_channel_ok; ex_channel_no_key; ex_channel_ok])
           [ex_channel_ok] ex_channel_no_key [ex_channel_ok] "stream_key");
    [reflexivity | reflexivity | repeat constructor |].
  right. repeat split.
Defined.

Lemma generate_auth_url_shape_witness :
  exists auth_uri client_id uris uri,
    Json.getitem ex_oauth "auth_uri" = Ok auth_uri
    /\ Json.getitem ex_oauth "client_id" = Ok client_id
    /\ Json.getitem ex_oauth "redirect_uris" = Ok uris
    /\ Json.getitem0 uris = Ok (JStr uri)
    /\ default "" (generate_auth_url ex_str ex_quote ex_oauth ex_world).1
       = ex_str auth_uri ++ "?client_id=" ++ ex_str client_id
         ++ "&redirect_uri=" ++ ex_quote uri
         ++ "&scope=" ++ ex_quote oauth_scope
         ++ "&response_type=code&access_type=offline&prompt=consent".
Proof.
  apply (generate_auth_url_shape ex_str ex_quote ex_oauth ex_world).
  reflexivity.
Defined.

Lemma save_channel_row_upserts_witness :
  exists row,
    List.filter (fun x => String.eqb (cr_channel_name x) "Main")
      (save_channel_row ex_clock ex_isoformat "Main" "UC-new" ex_oauth
         ex_table ex_world).1.2 = [row]
    /\ cr_channel_id row = "UC-new"
    /\ cr_auth_data row = ex_oauth.
Proof.
  destruct (save_channel_row_upserts ex_clock ex_isoformat "Main" "UC-new"
              ex_oauth ex_table ex_world eq_refl)
    as (_ & (row & H1 & H2 & H3 & _) & _).
  by exists row.
Defined.

Lemma load_saved_channels_by_recency_witness :
  (exists rows,
      (load_saved_channels ex_table ex_world).1 = channel_dict <$> rows
      /\ rows ≡ₚ ex_table /\ Sorted recent_first rows)
  /\ (load_saved_channels ex_table ex_world_down).1 = [].
Proof.
  split.
  - apply (proj1 (load_saved_channels_by_recency ex_table ex_world)).
    reflexivity.
  - apply (proj2 (load_saved_channels_by_recency ex_table ex_world_down)).
    reflexivity.
Defined.

Lemma update_channel_last_used_only_touches_witness :
  (update_channel_last_used ex_clock ex_isoformat "Gone" ex_table ex_world).1
    = ex_table
  /\ w_ui (update_channel_last_used ex_clock ex_isoformat "Gone" ex_table
             ex_world).2 = w_ui ex_world.
Proof.
  destruct (update_channel_last_used_only_touches ex_clock ex_isoformat "Gone"
              ex_table ex_world) as (_ & _ & _ & _ & H).
  destruct H as [H1 H2]; [repeat constructor; discriminate |].
  split; [exact H1 | by apply H2].
Defined.

Lemma run_ffmpeg_without_session_writes_no_row_witness :
  w_logs (run_ffmpeg ex_clock ex_isoformat ex_str
            (log_callback ex_clock ex_strftime) ex_popen "demo.mp4"
            (JStr "ABCD-1234-EFGH") false None (Some "") (ex_state, ex_world)).2
  = w_logs ex_world.
Proof.
  apply (run_ffmpeg_without_session_writes_no_row ex_clock ex_isoformat
           ex_strftime ex_str ex_popen "demo.mp4" (JStr "ABCD-1234-EFGH")
           false None (Some "") ex_state ex_world).
  reflexivity.
Defined.
